(** * Verification of the Bitget exchange client (src/src/ability/module/bitget_trader.py)

    Shallow embedding of [BitgetAPI.get_signature], [BitgetAPI.request],
    [BitgetAPI.get_server_time] and the domain methods that build requests.
    Python [str] values are modelled as Rocq strings holding their UTF-8
    bytes, so [str.encode()] is the byte list of the string.  The library
    primitives the signature uses (hashlib.sha256, hmac, base64) are written
    out so that signatures compute. *)

From Stdlib Require Import String Ascii List ZArith QArith Lqa Bool Lia Sorting.Permutation Sorting.Sorted FunctionalExtensionality.
Import ListNotations.
Open Scope string_scope.
Set Warnings "-register-all".


(* ------------------------------------------------------------------ *)
(** ** Python string helpers *)

Module PyStr.

(** [c.upper()] / [c.lower()] on ASCII letters. *)
Definition upper_char (c : ascii) : ascii :=
  let n := nat_of_ascii c in
  if (97 <=? n)%nat && (n <=? 122)%nat then ascii_of_nat (n - 32) else c.

Definition lower_char (c : ascii) : ascii :=
  let n := nat_of_ascii c in
  if (65 <=? n)%nat && (n <=? 90)%nat then ascii_of_nat (n + 32) else c.

Fixpoint upper (s : string) : string :=
  match s with
  | EmptyString => EmptyString
  | String c r => String (upper_char c) (upper r)
  end.

Fixpoint lower (s : string) : string :=
  match s with
  | EmptyString => EmptyString
  | String c r => String (lower_char c) (lower r)
  end.

(** [s.split(sep)] for a one-character separator: [""] splits to [[""]]. *)
Fixpoint split_on (sep : ascii) (s : string) : list string :=
  match s with
  | EmptyString => [EmptyString]
  | String c r =>
      if Ascii.eqb c sep then EmptyString :: split_on sep r
      else match split_on sep r with
           | w :: ws => String c w :: ws
           | [] => [String c EmptyString]
           end
  end.

(** [sep.join(l)]. *)
Fixpoint join (sep : string) (l : list string) : string :=
  match l with
  | [] => EmptyString
  | [x] => x
  | x :: r => x ++ sep ++ join sep r
  end.

Definition is_empty (s : string) : bool :=
  match s with EmptyString => true | _ => false end.

(** [s.startswith(p)]. *)
Definition startswith (s p : string) : bool := String.prefix p s.

(** [s.lstrip('/')] and [s.rstrip('/')]. *)
Fixpoint lstrip_slash (s : string) : string :=
  match s with
  | String "/" r => lstrip_slash r
  | _ => s
  end.

Definition rstrip_slash (s : string) : string :=
  string_of_list_ascii
    (rev (list_ascii_of_string (lstrip_slash (string_of_list_ascii (rev (list_ascii_of_string s)))))).

(** [str(n)] for a Python int. *)
Definition digit_char (d : N) : ascii := ascii_of_N (48 + d).

Fixpoint N_digits (fuel : nat) (n : N) (acc : string) : string :=
  match fuel with
  | O => acc
  | S f =>
      let acc' := String (digit_char (n mod 10)) acc in
      if (n <? 10)%N then acc' else N_digits f (n / 10)%N acc'
  end.

Definition str_N (n : N) : string := N_digits (S (N.size_nat n)) n EmptyString.

Definition str_Z (z : Z) : string :=
  if (z <? 0)%Z then "-" ++ str_N (Z.to_N (- z)) else str_N (Z.to_N z).

(** [str.encode()] : the UTF-8 bytes, which a Rocq string already holds. *)
Definition encode (s : string) : list Z :=
  map (fun c => Z.of_N (N_of_ascii c)) (list_ascii_of_string s).

(** Python's [<] on str: code-point lexicographic order. *)
Definition ltb (a b : string) : bool :=
  match String.compare a b with Lt => true | _ => false end.

End PyStr.

(* ------------------------------------------------------------------ *)
(** ** hashlib.sha256, hmac.new(...).digest() and base64.b64encode *)

Module Crypto.
Open Scope Z_scope.
Open Scope list_scope.

Definition M32 : Z := 2 ^ 32 - 1.
Definition add32 (a b : Z) : Z := (a + b) mod 2 ^ 32.
Definition rotr (x : Z) (n : Z) : Z :=
  Z.lor (Z.shiftr x n) (Z.land (Z.shiftl x (32 - n)) M32).

Definition ch (x y z : Z) : Z := Z.lxor (Z.land x y) (Z.land (Z.lxor x M32) z).
Definition maj (x y z : Z) : Z := Z.lxor (Z.lxor (Z.land x y) (Z.land x z)) (Z.land y z).
Definition bsig0 (x : Z) : Z := Z.lxor (Z.lxor (rotr x 2) (rotr x 13)) (rotr x 22).
Definition bsig1 (x : Z) : Z := Z.lxor (Z.lxor (rotr x 6) (rotr x 11)) (rotr x 25).
Definition ssig0 (x : Z) : Z := Z.lxor (Z.lxor (rotr x 7) (rotr x 18)) (Z.shiftr x 3).
Definition ssig1 (x : Z) : Z := Z.lxor (Z.lxor (rotr x 17) (rotr x 19)) (Z.shiftr x 10).

(* The 64 round constants, in decimal. *)
Definition K : list Z :=
  [1116352408; 1899447441; 3049323471; 3921009573; 961987163; 1508970993;
   2453635748; 2870763221; 3624381080; 310598401; 607225278; 1426881987;
   1925078388; 2162078206; 2614888103; 3248222580; 3835390401; 4022224774;
   264347078; 604807628; 770255983; 1249150122; 1555081692; 1996064986;
   2554220882; 2821834349; 2952996808; 3210313671; 3336571891; 3584528711;
   113926993; 338241895; 666307205; 773529912; 1294757372; 1396182291;
   1695183700; 1986661051; 2177026350; 2456956037; 2730485921; 2820302411;
   3259730800; 3345764771; 3516065817; 3600352804; 4094571909; 275423344;
   430227734; 506948616; 659060556; 883997877; 958139571; 1322822218;
   1537002063; 1747873779; 1955562222; 2024104815; 2227730452; 2361852424;
   2428436474; 2756734187; 3204031479; 3329325298].

Definition H0 : list Z :=
  [0x6a09e667; 0xbb67ae85; 0x3c6ef372; 0xa54ff53a; 0x510e527f; 0x9b05688c; 0x1f83d9ab; 0x5be0cd19].

(** Big-endian byte encodings. *)
Fixpoint be_bytes (n : nat) (x : Z) : list Z :=
  match n with
  | O => []
  | S m => be_bytes m (Z.shiftr x 8) ++ [Z.land x 255]
  end.

Fixpoint be_words (l : list Z) : list Z :=
  match l with
  | a :: b :: c :: d :: r =>
      Z.lor (Z.shiftl a 24) (Z.lor (Z.shiftl b 16) (Z.lor (Z.shiftl c 8) d)) :: be_words r
  | _ => []
  end.

Definition pad (msg : list Z) : list Z :=
  let len := Z.of_nat (length msg) in
  msg ++ [128] ++ repeat 0 (Z.to_nat ((55 - len) mod 64)) ++ be_bytes 8 (8 * len).

(** Message schedule, built newest-first: [ws] holds W(t-1), W(t-2), ... *)
Fixpoint schedule (n : nat) (ws : list Z) : list Z :=
  match n with
  | O => ws
  | S m =>
      let w := add32 (add32 (ssig1 (nth 1 ws 0)) (nth 6 ws 0))
                     (add32 (ssig0 (nth 14 ws 0)) (nth 15 ws 0)) in
      schedule m (w :: ws)
  end.

Definition round (st : list Z) (kw : Z * Z) : list Z :=
  match st with
  | [a; b; c; d; e; f; g; h] =>
      let t1 := add32 (add32 (add32 h (bsig1 e)) (add32 (ch e f g) (fst kw))) (snd kw) in
      let t2 := add32 (bsig0 a) (maj a b c) in
      [add32 t1 t2; a; b; c; add32 d t1; e; f; g]
  | _ => st
  end.

Definition compress (hv : list Z) (block : list Z) : list Z :=
  let w := rev (schedule 48 (rev (be_words block))) in
  let st := fold_left round (combine K w) hv in
  map (fun p => add32 (fst p) (snd p)) (combine hv st).

Fixpoint blocks (n : nat) (l : list Z) : list (list Z) :=
  match n with
  | O => []
  | S m => firstn 64 l :: blocks m (skipn 64 l)
  end.

Definition sha256 (msg : list Z) : list Z :=
  let p := pad msg in
  let hv := fold_left compress (blocks (length p / 64) p) H0 in
  flat_map (be_bytes 4) hv.

(** [hmac.new(key, msg, hashlib.sha256).digest()], block size 64. *)
Definition hmac_sha256 (key msg : list Z) : list Z :=
  let k := if (64 <? length key)%nat then sha256 key else key in
  let k0 := k ++ repeat 0 (64 - length k) in
  let ik := map (Z.lxor 0x36) k0 in
  let ok := map (Z.lxor 0x5c) k0 in
  sha256 (ok ++ sha256 (ik ++ msg)).

Definition b64_char (i : Z) : ascii :=
  if i <? 26 then ascii_of_N (Z.to_N (65 + i))
  else if i <? 52 then ascii_of_N (Z.to_N (97 + i - 26))
  else if i <? 62 then ascii_of_N (Z.to_N (48 + i - 52))
  else if i =? 62 then "+"%char else "/"%char.

Definition sextet (x : Z) (k : Z) : ascii := b64_char (Z.land (Z.shiftr x k) 63).

(** [base64.b64encode(data).decode()]. *)
Fixpoint b64encode (l : list Z) : string :=
  match l with
  | a :: b :: c :: r =>
      let x := Z.lor (Z.shiftl a 16) (Z.lor (Z.shiftl b 8) c) in
      String (sextet x 18) (String (sextet x 12) (String (sextet x 6) (String (sextet x 0) (b64encode r))))
  | [a; b] =>
      let x := Z.lor (Z.shiftl a 16) (Z.shiftl b 8) in
      String (sextet x 18) (String (sextet x 12) (String (sextet x 6) "="%string))
  | [a] =>
      let x := Z.shiftl a 16 in
      String (sextet x 18) (String (sextet x 12) "=="%string)
  | [] => EmptyString
  end.

End Crypto.

(* ------------------------------------------------------------------ *)
(** ** BitgetAPI.get_signature *)

Module Signature.
Import PyStr Crypto.

(** The sort key [lambda x: x.split('=')[0]]. *)
Definition key (x : string) : string := hd EmptyString (split_on "=" x).

(** [sorted(l, key=...)]: a stable insertion sort by key. *)
Fixpoint insert (x : string) (l : list string) : list string :=
  match l with
  | [] => [x]
  | y :: r => if ltb (key y) (key x) then y :: insert x r else x :: y :: r
  end.

Fixpoint sort_by_key (l : list string) : list string :=
  match l with
  | [] => []
  | x :: r => insert x (sort_by_key r)
  end.

(** A query pair that contains no separator [c]. *)
Definition no_sep (c : ascii) (s : string) : Prop := ~ In c (list_ascii_of_string s).

(** Python's [sorted] order in general: no element's key is below the key before it. *)
Definition key_le (a b : string) : Prop := ltb (key b) (key a) = false.

(** The query string after the reassignment at the top of get_signature. *)
Definition sorted_query (query_string : string) : string :=
  if negb (is_empty query_string)
  then join "&" (sort_by_key (split_on "&" query_string))
  else query_string.

Definition message (timestamp : Z) (method request_path query_string body : string) : string :=
  let q := sorted_query query_string in
  if negb (is_empty q)
  then str_Z timestamp ++ upper method ++ request_path ++ "?" ++ q ++ body
  else str_Z timestamp ++ upper method ++ request_path ++ body.

Definition get_signature (secret : string) (timestamp : Z)
           (method request_path query_string body : string) : string :=
  b64encode (hmac_sha256 (encode secret) (encode (message timestamp method request_path query_string body))).

End Signature.

(* ------------------------------------------------------------------ *)
(** ** JSON values, responses and the observable trace of a call *)

Module Client.
Import PyStr Signature.

(** A parsed JSON value ([response.json()]); JSON objects carry unique keys. *)
Inductive json : Type :=
| JNull
| JBool (b : bool)
| JNum (z : Z)
| JStr (s : string)
| JArr (l : list json)
| JObj (kvs : list (string * json)).

Fixpoint assoc {A} (k : string) (kvs : list (string * A)) : option A :=
  match kvs with
  | [] => None
  | (k', v) :: r => if String.eqb k k' then Some v else assoc k r
  end.

Definition type_name (v : json) : string :=
  match v with
  | JNull => "NoneType" | JBool _ => "bool" | JNum _ => "int"
  | JStr _ => "str" | JArr _ => "list" | JObj _ => "dict"
  end.

(** [d.get(k)]: [None] when [d] is not a dict (AttributeError). *)
Definition dict_get (d : json) (k : string) : option (option json) :=
  match d with JObj kvs => Some (assoc k kvs) | _ => None end.

Definition attr_error (v : json) (attr : string) : string :=
  "'" ++ type_name v ++ "' object has no attribute '" ++ attr ++ "'".

(** [json.dumps] with its default separators; non-ASCII bytes are left as they are. *)
Definition dq : ascii := ascii_of_nat 34.
Definition bsl : ascii := ascii_of_nat 92.

Definition hex_digit (n : nat) : ascii :=
  if (n <? 10)%nat then ascii_of_nat (48 + n) else ascii_of_nat (87 + n).

Definition escape_char (c : ascii) : string :=
  let n := nat_of_ascii c in
  if (n =? 34)%nat then String bsl (String dq EmptyString)
  else if (n =? 92)%nat then String bsl (String bsl EmptyString)
  else if (n =? 10)%nat then String bsl "n"
  else if (n =? 13)%nat then String bsl "r"
  else if (n =? 9)%nat then String bsl "t"
  else if (n =? 8)%nat then String bsl "b"
  else if (n =? 12)%nat then String bsl "f"
  else if (n <? 32)%nat then String bsl ("u00" ++ String (hex_digit (n / 16)) (String (hex_digit (n mod 16)) EmptyString))
  else String c EmptyString.

Fixpoint escape (s : string) : string :=
  match s with
  | EmptyString => EmptyString
  | String c r => escape_char c ++ escape r
  end.

Definition quote (s : string) : string := String dq (escape s ++ String dq EmptyString).

Fixpoint json_dumps (v : json) : string :=
  match v with
  | JNull => "null"
  | JBool b => if b then "true" else "false"
  | JNum z => str_Z z
  | JStr s => quote s
  | JArr l => "[" ++ join ", " (map json_dumps l) ++ "]"
  | JObj kvs => "{" ++ join ", " (map (fun kv => quote (fst kv) ++ ": " ++ json_dumps (snd kv)) kvs) ++ "}"
  end.

(** [int(v)] as get_server_time applies it; strings are an optional sign
    followed by decimal digits. *)
Fixpoint digits_value (s : string) (acc : Z) : option Z :=
  match s with
  | EmptyString => Some acc
  | String c r =>
      let n := Z.of_nat (nat_of_ascii c) in
      if ((48 <=? n) && (n <=? 57))%Z then digits_value r (acc * 10 + (n - 48))%Z else None
  end.

Definition parse_int (s : string) : option Z :=
  match s with
  | EmptyString => None
  | String "-" EmptyString | String "+" EmptyString => None
  | String "-" r => option_map Z.opp (digits_value r 0)
  | String "+" r => digits_value r 0
  | _ => digits_value s 0
  end.

Definition py_int (v : json) : option Z :=
  match v with
  | JNum z => Some z
  | JBool b => Some (if b then 1 else 0)%Z
  | JStr s => parse_int s
  | _ => None
  end.

(** The client object. *)
Record BitgetAPI := mkBitgetAPI {
  api_key : string;
  secret : string;
  passphrase : string;
  base_url : string
}.

Definition PRODUCT_TYPE : string := "USDT-FUTURES".

Definition base_headers (c : BitgetAPI) : list (string * string) :=
  [("ACCESS-KEY", api_key c); ("ACCESS-PASSPHRASE", passphrase c);
   ("Content-Type", "application/json"); ("locale", "en-US")].

(** What the transport ([requests.get/post/delete]) does with one attempt. *)
Inductive response : Type :=
| Resp (status_code : Z) (parsed : option json) (text : string)
| RequestException (msg : string)
| OtherException (msg : string).

(** One entry of the observable trace of a call: an HTTP attempt, a
    [time.sleep], or a [get_server_time] call with the trace of its own
    nested request and the timestamp it returned. *)
Inductive event : Type :=
| Send (method url : string) (headers : list (string * string)) (payload : option json) (resp : response)
| Sleep (secs : Q)
| ServerTime (sub : list event) (ts : Z).

(** The outside world: URLs sent so far (the mock transport answers by URL and
    by how many attempts that URL already got), clock reads and random draws. *)
Record world := mkWorld {
  sent : list string;
  clock_reads : nat;
  rand_draws : nat
}.

Definition failed_error (e : string) : json :=
  JObj [("status", JStr "FAILED"); ("error", JStr e)].

Definition max_retries_exceeded : json := failed_error "Max retries exceeded".

(** [min(30, (2 ** retries)) + random.uniform(0, 1)]. *)
Definition backoff_base (retries : Z) : Z := Z.min 30 (2 ^ retries).
Definition backoff_wait (retries : Z) (jitter : Q) : Q := inject_Z (backoff_base retries) + jitter.

Definition drift_codes : list string := ["40004"; "40005"; "40008"].

Definition json_decode_error : string := "Expecting value: line 1 column 1 (char 0)".

Section Request.

(** [time.time() * 1000] at the k-th clock read. *)
Variable clock : nat -> Z.
(** [random.uniform(0, 1)] at the k-th draw. *)
Variable rand : nat -> Q.
(** The transport's answer to the n-th attempt (counting from 0) at a URL. *)
Variable transport : string -> nat -> response.

Definition read_clock (w : world) : Z * world :=
  (clock (clock_reads w), mkWorld (sent w) (S (clock_reads w)) (rand_draws w)).

Definition draw (w : world) : Q * world :=
  (rand (rand_draws w), mkWorld (sent w) (clock_reads w) (S (rand_draws w))).

Definition send (url : string) (w : world) : response * world :=
  (transport url (count_occ string_dec (sent w) url),
   mkWorld (sent w ++ [url]) (clock_reads w) (rand_draws w)).

Definition result : Type := (json * list event * world)%type.

(** The retry loop [while retries <= max_retries: try ... except ...] of
    [BitgetAPI.request].  [sync] is [self.get_server_time()]; the header dict,
    and with it the signature, is the one built before the loop. *)
Fixpoint loop (sync : world -> Z * list event * world)
         (method url : string) (headers : list (string * string)) (payload : option json)
         (max_retries : Z) (fuel : nat) (retries : Z) (w : world) : result :=
  match fuel with
  | O => (max_retries_exceeded, [], w)
  | S f =>
    if negb (retries <=? max_retries)%Z then (max_retries_exceeded, [], w) else
    let '(resp, w1) := send url w in
    let ev := Send method url headers payload resp in
    (* wait_seconds = min(30, (2 ** retries)) + random.uniform(0, 1); sleep; retries += 1 *)
    let backoff (w : world) : result :=
      let '(j, w2) := draw w in
      let '(r, tr, w3) := loop sync method url headers payload max_retries f (retries + 1) w2 in
      (r, ev :: Sleep (backoff_wait retries j) :: tr, w3) in
    (* except ...: if retries >= max_retries: return {...}; else back off *)
    let on_exception (prefix msg : string) : result :=
      if (max_retries <=? retries)%Z then (failed_error (prefix ++ msg), [ev], w1)
      else backoff w1 in
    match resp with
    | RequestException msg => on_exception "Request error: " msg
    | OtherException msg => on_exception "Unexpected error: " msg
    | Resp status_code parsed text =>
      if (status_code =? 200)%Z then
        match parsed with
        | Some j => (j, [ev], w1)
        | None => on_exception "Request error: " json_decode_error
        end
      else
      let response_data := match parsed with Some j => j | None => JObj [("error", JStr text)] end in
      let other := (JObj [("status", JStr "FAILED"); ("status_code", JNum status_code);
                          ("response_data", response_data)], [ev], w1) in
      if (status_code =? 400)%Z then
        match dict_get response_data "code" with
        | None => on_exception "Unexpected error: " (attr_error response_data "get")
        | Some oc =>
          let error_code := match oc with Some v => v | None => JStr "" end in
          let error_msg := match dict_get response_data "msg" with
                           | Some (Some v) => v | _ => JStr "Unknown error" end in
          let drift := match error_code with
                       | JStr s => existsb (String.eqb s) drift_codes | _ => false end in
          if drift && (retries <? max_retries)%Z then
            (* time.sleep(1); timestamp = self.get_server_time(); retries += 1 *)
            let '(ts, sub, w2) := sync w1 in
            let '(r, tr, w3) := loop sync method url headers payload max_retries f (retries + 1) w2 in
            (r, ev :: Sleep 1 :: ServerTime sub ts :: tr, w3)
          else
          match error_code with
          | JStr s =>
            if startswith s "4001" || startswith s "4002" then
              (JObj [("status", JStr "FAILED"); ("status_code", JNum status_code);
                     ("error_code", error_code); ("error_msg", error_msg);
                     ("response_data", response_data)], [ev], w1)
            else other
          | _ => on_exception "Unexpected error: " (attr_error error_code "startswith")
          end
        end
      else if (status_code =? 401)%Z || (status_code =? 403)%Z then
        (JObj [("status", JStr "FAILED"); ("status_code", JNum status_code);
               ("error", JStr (if (status_code =? 401)%Z then "Authentication error" else "Access denied"));
               ("response_data", response_data)], [ev], w1)
      else if (status_code =? 429)%Z then backoff w1
      else if (500 <=? status_code)%Z then
        (if (retries <? max_retries)%Z then backoff w1 else other)
      else other
    end
  end.

(** [dict(sorted(params.items()))]: dict keys are unique, so this orders by key. *)
Fixpoint insert_param (kv : string * string) (l : list (string * string)) : list (string * string) :=
  match l with
  | [] => [kv]
  | y :: r => if ltb (fst y) (fst kv) then y :: insert_param kv r else kv :: y :: r
  end.

Fixpoint sort_params (l : list (string * string)) : list (string * string) :=
  match l with
  | [] => []
  | kv :: r => insert_param kv (sort_params r)
  end.

(** [url = f"{self.base_url.rstrip('/')}/{endpoint.lstrip('/')}"], plus the
    query string for a GET with parameters.  Parameter values are their [str]. *)
Definition query_of (params : option (list (string * string))) : string :=
  match params with
  | Some ((_ :: _) as ps) => join "&" (map (fun kv => fst kv ++ "=" ++ snd kv) (sort_params ps))
  | _ => ""
  end.

Definition is_get (method : string) : bool := String.eqb (lower method) "get".

Definition request_url (c : BitgetAPI) (method endpoint : string)
           (params : option (list (string * string))) : string :=
  let url := rstrip_slash (base_url c) ++ "/" ++ lstrip_slash endpoint in
  match params with
  | Some (_ :: _) => if is_get method then url ++ "?" ++ query_of params else url
  | _ => url
  end.

Definition TIME_ENDPOINT : string := "api/v2/public/time".

(** The value [get_server_time] extracts from the response of its request:
    [int(response["data"]["serverTime"])] when that path exists. *)
Definition server_time_of (r : json) : option Z :=
  match r with
  | JObj kvs =>
    match assoc "data" kvs with
    | Some (JObj d) => match assoc "serverTime" d with Some v => py_int v | None => None end
    | _ => None
    end
  | _ => None
  end.

(** [BitgetAPI.request]; [depth] is the remaining Python recursion budget
    ([get_server_time] calls [request] again).  When it is exhausted the
    RecursionError is caught by [get_server_time], which falls back to the
    local clock. *)
Fixpoint request (depth : nat) (c : BitgetAPI) (method endpoint : string)
         (params : option (list (string * string))) (body : option (list (string * json)))
         (max_retries : Z) (w : world) : result :=
  let url := request_url c method endpoint params in
  let '(timestamp, w1) := read_clock w in
  let query_string := query_of params in
  let body_str := match body with Some ((_ :: _) as kvs) => json_dumps (JObj kvs) | _ => "" end in
  let signature := get_signature (secret c) timestamp (upper method) ("/" ++ lstrip_slash endpoint)
                     (if is_get method then query_string else "")
                     (if is_get method then "" else body_str) in
  let headers := (base_headers c ++ [("ACCESS-TIMESTAMP", str_Z timestamp); ("ACCESS-SIGN", signature)])%list in
  let payload := if is_get method then None else option_map JObj body in
  let get_server_time (w : world) : Z * list event * world :=
    match depth with
    | O => let '(t, w') := read_clock w in (t, [], w')
    | S d =>
      let '(r, tr, w') := request d c "get" TIME_ENDPOINT None None 3 w in
      match server_time_of r with
      | Some t => (t, tr, w')
      | None => let '(t, w'') := read_clock w' in (t, tr, w'')
      end
    end in
  loop get_server_time method url headers payload max_retries (Z.to_nat (max_retries + 1)) 0 w1.

(** [self.get_server_time()] as the loop of a [request] at budget [depth]
    calls it. *)
Definition server_time_sync (depth : nat) (c : BitgetAPI) (w : world) : Z * list event * world :=
  match depth with
  | O => let '(t, w') := read_clock w in (t, [], w')
  | S d =>
    let '(r, tr, w') := request d c "get" TIME_ENDPOINT None None 3 w in
    match server_time_of r with
    | Some t => (t, tr, w')
    | None => let '(t, w'') := read_clock w' in (t, tr, w'')
    end
  end.

(** What a domain method hands back to its caller: a returned value or a
    raised [ValueError]. *)
Inductive outcome : Type :=
| Return (j : json)
| ValueError (msg : string).

Definition call_result : Type := (outcome * list event * world)%type.

Definition returned (r : result) : call_result :=
  let '(j, tr, w) := r in (Return j, tr, w).

(** Python truthiness of an optional [str] argument. *)
Definition truthy (o : option string) : bool :=
  match o with Some s => negb (is_empty s) | None => false end.

Definition get_account_info (depth : nat) (c : BitgetAPI) (product_type : option string)
           (w : world) : call_result :=
  let pt := match product_type with Some s => if is_empty s then PRODUCT_TYPE else s | None => PRODUCT_TYPE end in
  returned (request depth c "get" "api/v2/mix/account/accounts" (Some [("productType", pt)]) None 3 w).

Definition get_all_positions (depth : nat) (c : BitgetAPI) (margin_coin : option string)
           (w : world) : call_result :=
  let params := (("productType", PRODUCT_TYPE) ::
                 match margin_coin with
                 | Some m => if is_empty m then [] else [("marginCoin", upper m)]
                 | None => []
                 end)%list in
  returned (request depth c "get" "api/v2/mix/position/all-position" (Some params) None 3 w).

Definition post_order (depth : nat) (c : BitgetAPI) (symbol side quantity _type : string)
           (price : option string) (reduce_only : bool) (time_in_force margin_mode margin_coin : string)
           (trade_side client_oid take_profit stop_loss : option string) (w : world) : call_result :=
  let method := "post" in
  let endpoint := "api/v2/mix/order/place-order" in
  let order_data :=
    [("symbol", JStr (lower symbol)); ("productType", JStr PRODUCT_TYPE);
     ("marginMode", JStr margin_mode); ("marginCoin", JStr (upper margin_coin));
     ("size", JStr quantity); ("side", JStr (lower side)); ("orderType", JStr (lower _type))] in
  let opt (k : string) (v : option string) : list (string * json) :=
    match v with Some s => if truthy v then [(k, JStr s)] else [] | None => [] end in
  let order_data := (order_data ++ opt "tradeSide" trade_side
                       ++ (if reduce_only then [("reduceOnly", JStr "YES")] else []))%list in
  if String.eqb (lower _type) "limit" && negb (truthy price) then
    (ValueError "Price must be provided for limit orders", [], w)
  else
  let order_data := (order_data
                       ++ (if String.eqb (lower _type) "limit"
                           then opt "price" price ++ [("force", JStr time_in_force)] else [])
                       ++ opt "clientOid" client_oid
                       ++ opt "presetStopSurplusPrice" take_profit
                       ++ opt "presetStopLossPrice" stop_loss)%list in
  returned (request depth c method endpoint None (Some order_data) 3 w).

Definition delete_order (depth : nat) (c : BitgetAPI) (symbol : string)
           (order_id client_oid : option string) (margin_coin : string) (w : world) : call_result :=
  if negb (truthy order_id) && negb (truthy client_oid) then
    (ValueError "Either order_id or client_oid must be provided", [], w)
  else
  let opt (k : string) (v : option string) : list (string * json) :=
    match v with Some s => if truthy v then [(k, JStr s)] else [] | None => [] end in
  let body := ([("symbol", JStr (lower symbol)); ("productType", JStr PRODUCT_TYPE);
                ("marginCoin", JStr (upper margin_coin))]
               ++ opt "orderId" order_id ++ opt "clientOid" client_oid)%list in
  returned (request depth c "post" "api/v2/mix/order/cancel-order" None (Some body) 3 w).

End Request.

(** The Python recursion budget left for nested [get_server_time] calls. *)
Definition default_depth : nat := 100.

Definition fresh_world : world := mkWorld [] 0 0.

End Client.

(* ------------------------------------------------------------------ *)
(** ** The remaining domain methods of BitgetAPI *)

Module Domain.
Import PyStr Signature Client.

(** Python truthiness of an optional [int] argument. *)
Definition truthy_int (o : option Z) : bool :=
  match o with Some z => negb (z =? 0)%Z | None => false end.

(** [if v: params[k] = f(v)] for a key not yet in the dict: appended last. *)
Definition opt_param (k : string) (v : option string) (f : string -> string) : list (string * string) :=
  match v with Some s => if truthy v then [(k, f s)] else [] | None => [] end.

Definition opt_int_param (k : string) (v : option Z) : list (string * string) :=
  match v with Some z => if truthy_int v then [(k, str_Z z)] else [] | None => [] end.

Definition opt_field (k : string) (v : option string) (f : string -> string) : list (string * json) :=
  match v with Some s => if truthy v then [(k, JStr (f s))] else [] | None => [] end.

Definition id (s : string) : string := s.

(** [interval_mapping] of get_future_prices, in its source order. *)
Definition interval_mapping : list (string * string) :=
  [("1m", "1m"); ("3m", "3m"); ("5m", "5m"); ("15m", "15m"); ("30m", "30m");
   ("1h", "1H"); ("2h", "2H"); ("4h", "4H"); ("6h", "6H"); ("12h", "12H");
   ("1d", "1D"); ("3d", "3D"); ("1w", "1W"); ("1M", "1M")].

(** [interval_mapping.get(interval.lower(), interval)]. *)
Definition bitget_interval (interval : string) : string :=
  match assoc (lower interval) interval_mapping with Some v => v | None => interval end.

Section Methods.
Variable clock : nat -> Z.
Variable rand : nat -> Q.
Variable transport : string -> nat -> response.

Definition get_open_orders (depth : nat) (c : BitgetAPI) (symbol order_id client_oid status : option string)
           (start_time end_time : option Z) (limit : Z) (w : world) : call_result :=
  let params := ([("productType", PRODUCT_TYPE)]
                 ++ opt_param "symbol" symbol lower
                 ++ opt_param "orderId" order_id id
                 ++ opt_param "clientOid" client_oid id
                 ++ opt_param "status" status id
                 ++ opt_int_param "startTime" start_time
                 ++ opt_int_param "endTime" end_time
                 ++ opt_int_param "limit" (Some limit))%list in
  returned (request clock rand transport depth c "get" "api/v2/mix/order/orders-pending" (Some params) None 3 w).

Definition set_leverage (depth : nat) (c : BitgetAPI) (symbol leverage margin_coin : string)
           (hold_side : option string) (w : world) : call_result :=
  let body := ([("symbol", JStr (lower symbol)); ("productType", JStr PRODUCT_TYPE);
                ("marginCoin", JStr (upper margin_coin)); ("leverage", JStr leverage)]
               ++ opt_field "holdSide" hold_side lower)%list in
  returned (request clock rand transport depth c "post" "api/v2/mix/account/set-leverage" None (Some body) 3 w).

Definition adjust_position_margin (depth : nat) (c : BitgetAPI) (symbol amount hold_side margin_coin : string)
           (w : world) : call_result :=
  let body := [("symbol", JStr (lower symbol)); ("productType", JStr PRODUCT_TYPE);
               ("marginCoin", JStr (upper margin_coin)); ("amount", JStr amount);
               ("holdSide", JStr (lower hold_side))] in
  returned (request clock rand transport depth c "post" "api/v2/mix/account/set-margin" None (Some body) 3 w).

Definition set_margin_mode (depth : nat) (c : BitgetAPI) (symbol margin_mode margin_coin : string)
           (w : world) : call_result :=
  let body := [("symbol", JStr (lower symbol)); ("productType", JStr PRODUCT_TYPE);
               ("marginCoin", JStr (upper margin_coin)); ("marginMode", JStr margin_mode)] in
  returned (request clock rand transport depth c "post" "api/v2/mix/account/set-margin-mode" None (Some body) 3 w).

Definition set_position_mode (depth : nat) (c : BitgetAPI) (pos_mode : string) (product_type : option string)
           (w : world) : call_result :=
  let pt := match product_type with Some s => if is_empty s then PRODUCT_TYPE else s | None => PRODUCT_TYPE end in
  let body := [("productType", JStr pt); ("posMode", JStr pos_mode)] in
  returned (request clock rand transport depth c "post" "api/v2/mix/account/set-position-mode" None (Some body) 3 w).

Definition get_future_prices (depth : nat) (c : BitgetAPI) (symbol interval : string)
           (start_time end_time : option Z) (limit : Z) (kline_type : option string) (w : world) : call_result :=
  let params := ([("symbol", lower symbol); ("productType", PRODUCT_TYPE);
                  ("granularity", bitget_interval interval); ("limit", str_Z limit)]
                 ++ opt_param "kLineType" kline_type id
                 ++ opt_int_param "startTime" start_time
                 ++ opt_int_param "endTime" end_time)%list in
  returned (request clock rand transport depth c "get" "api/v2/mix/market/candles" (Some params) None 3 w).

Definition get_future_price (depth : nat) (c : BitgetAPI) (symbol : string) (w : world) : call_result :=
  let params := [("symbol", lower symbol); ("productType", PRODUCT_TYPE)] in
  returned (request clock rand transport depth c "get" "api/v2/mix/market/symbol-price" (Some params) None 3 w).

Definition get_order_history (depth : nat) (c : BitgetAPI) (symbol order_id client_oid order_source : option string)
           (start_time end_time : option Z) (limit : Z) (id_less_than : option string) (w : world) : call_result :=
  let params := ([("productType", PRODUCT_TYPE); ("limit", str_Z limit)]
                 ++ opt_param "symbol" symbol lower
                 ++ opt_param "orderId" order_id id
                 ++ opt_param "clientOid" client_oid id
                 ++ opt_param "orderSource" order_source id
                 ++ opt_int_param "startTime" start_time
                 ++ opt_int_param "endTime" end_time
                 ++ opt_param "idLessThan" id_less_than id)%list in
  returned (request clock rand transport depth c "get" "api/v2/mix/order/orders-history" (Some params) None 3 w).

Definition get_exchange_info (depth : nat) (c : BitgetAPI) (symbol : option string) (w : world) : call_result :=
  let params := ([("productType", PRODUCT_TYPE)] ++ opt_param "symbol" symbol lower)%list in
  returned (request clock rand transport depth c "get" "api/v2/mix/market/contracts" (Some params) None 3 w).

Definition get_spot_account_info (depth : nat) (c : BitgetAPI) (w : world) : call_result :=
  returned (request clock rand transport depth c "get" "api/v2/spot/account/info" None None 3 w).

Definition get_transfer_records (depth : nat) (c : BitgetAPI) (coin : string) (from_type : option string)
           (start_time end_time : option Z) (client_oid : option string) (page_num limit : Z)
           (id_less_than : option string) (w : world) : call_result :=
  let params := ([("coin", upper coin); ("pageNum", str_Z page_num); ("limit", str_Z limit)]
                 ++ opt_param "fromType" from_type id
                 ++ opt_int_param "startTime" start_time
                 ++ opt_int_param "endTime" end_time
                 ++ opt_param "clientOid" client_oid id
                 ++ opt_param "idLessThan" id_less_than id)%list in
  returned (request clock rand transport depth c "get" "api/v2/spot/account/transferRecords" (Some params) None 3 w).

Definition get_withdrawal_records (depth : nat) (c : BitgetAPI) (coin client_oid : option string)
           (start_time end_time : option Z) (id_less_than order_id : option string) (limit : Z)
           (w : world) : call_result :=
  let params := ([("limit", str_Z limit)]
                 ++ opt_param "coin" coin upper
                 ++ opt_param "clientOid" client_oid id
                 ++ opt_int_param "startTime" start_time
                 ++ opt_int_param "endTime" end_time
                 ++ opt_param "idLessThan" id_less_than id
                 ++ opt_param "orderId" order_id id)%list in
  returned (request clock rand transport depth c "get" "api/v2/spot/wallet/withdrawal-records" (Some params) None 3 w).

Definition get_deposit_records (depth : nat) (c : BitgetAPI) (coin order_id : option string)
           (start_time end_time : option Z) (id_less_than : option string) (limit : Z)
           (w : world) : call_result :=
  let params := ([("limit", str_Z limit)]
                 ++ opt_param "coin" coin upper
                 ++ opt_param "orderId" order_id id
                 ++ opt_int_param "startTime" start_time
                 ++ opt_int_param "endTime" end_time
                 ++ opt_param "idLessThan" id_less_than id)%list in
  returned (request clock rand transport depth c "get" "api/v2/spot/wallet/deposit-records" (Some params) None 3 w).

(** A call of one of the domain methods of [BitgetAPI], with its arguments. *)
Inductive domain_call : Type :=
| GetAccountInfo (product_type : option string)
| GetAllPositions (margin_coin : option string)
| PostOrder (symbol side quantity _type : string) (price : option string) (reduce_only : bool)
            (time_in_force margin_mode margin_coin : string)
            (trade_side client_oid take_profit stop_loss : option string)
| DeleteOrder (symbol : string) (order_id client_oid : option string) (margin_coin : string)
| GetOpenOrders (symbol order_id client_oid status : option string) (start_time end_time : option Z) (limit : Z)
| SetLeverage (symbol leverage margin_coin : string) (hold_side : option string)
| AdjustPositionMargin (symbol amount hold_side margin_coin : string)
| SetMarginMode (symbol margin_mode margin_coin : string)
| SetPositionMode (pos_mode : string) (product_type : option string)
| GetFuturePrices (symbol interval : string) (start_time end_time : option Z) (limit : Z)
                  (kline_type : option string)
| GetFuturePrice (symbol : string)
| GetOrderHistory (symbol order_id client_oid order_source : option string)
                  (start_time end_time : option Z) (limit : Z) (id_less_than : option string)
| GetExchangeInfo (symbol : option string)
| GetSpotAccountInfo
| GetTransferRecords (coin : string) (from_type : option string) (start_time end_time : option Z)
                     (client_oid : option string) (page_num limit : Z) (id_less_than : option string)
| GetWithdrawalRecords (coin client_oid : option string) (start_time end_time : option Z)
                       (id_less_than order_id : option string) (limit : Z)
| GetDepositRecords (coin order_id : option string) (start_time end_time : option Z)
                    (id_less_than : option string) (limit : Z).

(** Run a domain method call on the client [c]. *)
Definition run_domain_call (depth : nat) (c : BitgetAPI) (call : domain_call) (w : world) : call_result :=
  match call with
  | GetAccountInfo pt => get_account_info clock rand transport depth c pt w
  | GetAllPositions mc => get_all_positions clock rand transport depth c mc w
  | PostOrder sy sd q t p ro tif mm mc ts co tp sl =>
      post_order clock rand transport depth c sy sd q t p ro tif mm mc ts co tp sl w
  | DeleteOrder sy oi co mc => delete_order clock rand transport depth c sy oi co mc w
  | GetOpenOrders sy oi co st s e l => get_open_orders depth c sy oi co st s e l w
  | SetLeverage sy lv mc hs => set_leverage depth c sy lv mc hs w
  | AdjustPositionMargin sy a hs mc => adjust_position_margin depth c sy a hs mc w
  | SetMarginMode sy mm mc => set_margin_mode depth c sy mm mc w
  | SetPositionMode pm pt => set_position_mode depth c pm pt w
  | GetFuturePrices sy iv s e l kt => get_future_prices depth c sy iv s e l kt w
  | GetFuturePrice sy => get_future_price depth c sy w
  | GetOrderHistory sy oi co os s e l il => get_order_history depth c sy oi co os s e l il w
  | GetExchangeInfo sy => get_exchange_info depth c sy w
  | GetSpotAccountInfo => get_spot_account_info depth c w
  | GetTransferRecords cn ft s e co pn l il => get_transfer_records depth c cn ft s e co pn l il w
  | GetWithdrawalRecords cn co s e il oi l => get_withdrawal_records depth c cn co s e il oi l w
  | GetDepositRecords cn oi s e il l => get_deposit_records depth c cn oi s e il l w
  end.

End Methods.
End Domain.

(* ------------------------------------------------------------------ *)
(** ** Failure kinds and shapes used to state properties of [request] *)

Module Kinds.
Import Client.

(** The responses after which the loop backs off exponentially when it is
    at attempt [retries]: HTTP 429 always, HTTP >= 500 and transport
    exceptions while the budget remains. *)
Definition backoff_retried (resp : response) (retries max_retries : Z) : bool :=
  match resp with
  | Resp st _ _ =>
      (st =? 429)%Z || ((500 <=? st)%Z && (retries <? max_retries)%Z)
  | RequestException _ | OtherException _ => (retries <? max_retries)%Z
  end.

(** The failure objects [request] builds from a non-200 HTTP answer: the
    4001x/4002x object of a 400, the 401/403 object, and the plain one. *)
Definition http_failure (r : json) : Prop :=
  exists (st : Z) (d : json),
    (exists s m, st = 400%Z /\ (PyStr.startswith s "4001" || PyStr.startswith s "4002") = true /\
       r = JObj [("status", JStr "FAILED"); ("status_code", JNum st); ("error_code", JStr s);
                 ("error_msg", m); ("response_data", d)]) \/
    (exists e, ((st = 401%Z /\ e = "Authentication error") \/ (st = 403%Z /\ e = "Access denied")) /\
       r = JObj [("status", JStr "FAILED"); ("status_code", JNum st); ("error", JStr e);
                 ("response_data", d)]) \/
    r = JObj [("status", JStr "FAILED"); ("status_code", JNum st); ("response_data", d)].

Definition exception_failure (r : json) : Prop :=
  r = max_retries_exceeded \/
  exists msg, r = failed_error ("Request error: " ++ msg) \/ r = failed_error ("Unexpected error: " ++ msg).

(** [r] is the parsed body of an HTTP 200 answer recorded in the trace. *)
Definition success_in (r : json) (tr : list event) : Prop :=
  exists m u h pl t, In (Send m u h pl (Resp 200 (Some r) t)) tr.

(** The world after one attempt at [u]. *)
Definition after_send (u : string) (w : world) : world :=
  mkWorld (sent w ++ [u])%list (clock_reads w) (rand_draws w).

(** The URL [get_server_time] requests. *)
Definition time_url (c : BitgetAPI) : string := request_url c "get" TIME_ENDPOINT None.

(** A [get_server_time] that only ever contacts the time endpoint. *)
Definition sync_ok (c : BitgetAPI) (sync : world -> Z * list event * world) : Prop :=
  forall w, exists extra, sent (snd (sync w)) = (sent w ++ extra)%list /\ Forall (fun x => x = time_url c) extra.

(** What a domain method hands back: a raised ValueError, or a success body
    received in the trace, or one of the failure objects. *)
Definition call_shape (o : call_result) : Prop :=
  match o with
  | (Return r, tr, _) => success_in r tr \/ http_failure r \/ exception_failure r
  | (ValueError _, _, _) => True
  end.

End Kinds.

(* ------------------------------------------------------------------ *)
(** ** Concrete inputs *)

Module Scenario.
Import Client.

Definition client : BitgetAPI := mkBitgetAPI "key" "secret" "pass" "https://api.bitget.com".
Definition clock (n : nat) : Z := (1700000000000 + Z.of_nat n)%Z.
Definition rand (n : nat) : Q := 1 # 2.

Definition accounts_url : string :=
  request_url client "get" "api/v2/mix/account/accounts" (Some [("productType", PRODUCT_TYPE)]).

Definition server_time_body : json :=
  JObj [("code", JStr "00000"); ("data", JObj [("serverTime", JStr "1700000005000")])].

(** The account endpoint answers its first attempt with a clock-skew 400 and
    its second with 200; the time endpoint reports a server time 5 s ahead. *)
Definition drift_then_ok (u : string) (n : nat) : response :=
  if String.eqb u accounts_url then
    (if Nat.eqb n 0
     then Resp 400 (Some (JObj [("code", JStr "40004"); ("msg", JStr "timestamp expired")])) ""
     else Resp 200 (Some (JObj [("code", JStr "00000"); ("data", JArr [])])) "")
  else Resp 200 (Some server_time_body) "".

Definition always (resp : response) (u : string) (n : nat) : response := resp.

End Scenario.

(* ================================================================== *)
(** * Properties *)

(** ** Splitting, joining and sorting query strings *)

Module SignatureFacts.
Import PyStr Signature.

Lemma ascii_compare_N (a b : ascii) : Ascii.compare a b = N.compare (N_of_ascii a) (N_of_ascii b).
Proof. reflexivity. Qed.

Lemma compare_lt_trans (a b c : string) :
  String.compare a b = Lt -> String.compare b c = Lt -> String.compare a c = Lt.
Proof.
  revert b c; induction a as [|x a IH]; intros [|y b] [|z c]; simpl; try discriminate; auto.
  rewrite !ascii_compare_N.
  destruct (N.compare_spec (N_of_ascii x) (N_of_ascii y)) as [Hxy|Hxy|Hxy];
  destruct (N.compare_spec (N_of_ascii y) (N_of_ascii z)) as [Hyz|Hyz|Hyz];
  intros H1 H2; try discriminate.
  - assert (E : N_of_ascii x = N_of_ascii z) by congruence.
    rewrite E, N.compare_refl. eauto.
  - rewrite Hxy. apply N.compare_lt_iff in Hyz. rewrite Hyz. reflexivity.
  - rewrite <- Hyz. apply N.compare_lt_iff in Hxy. rewrite Hxy. reflexivity.
  - assert (E : (N_of_ascii x ?= N_of_ascii z)%N = Lt)
      by (apply N.compare_lt_iff; eapply N.lt_trans; eauto).
    rewrite E. reflexivity.
Qed.

Lemma ltb_lt (a b : string) : ltb a b = true <-> String.compare a b = Lt.
Proof. unfold ltb. destruct (String.compare a b); split; congruence. Qed.

Lemma ltb_asym (a b : string) : ltb a b = true -> ltb b a = false.
Proof.
  unfold ltb. rewrite (String.compare_antisym b a).
  destruct (String.compare a b); simpl; congruence.
Qed.

Lemma ltb_total (a b : string) : ltb a b = false -> ltb b a = false -> a = b.
Proof.
  unfold ltb. rewrite (String.compare_antisym b a).
  destruct (String.compare a b) eqn:E; simpl; try discriminate.
  intros _ _. apply String.compare_eq_iff. exact E.
Qed.

Lemma ltb_trans (a b c : string) : ltb a b = true -> ltb b c = true -> ltb a c = true.
Proof. rewrite !ltb_lt. apply compare_lt_trans. Qed.

(** Not-less is transitive with less on the right. *)
Lemma ltb_le_lt (a b c : string) : ltb b a = false -> ltb b c = true -> ltb a c = true.
Proof.
  intros H1 H2. destruct (ltb a b) eqn:E.
  - eapply ltb_trans; eauto.
  - rewrite (ltb_total a b E H1). exact H2.
Qed.

Lemma insert_comm (a b : string) (l : list string) :
  key a <> key b -> insert a (insert b l) = insert b (insert a l).
Proof.
  intros Hab. induction l as [|y l IH]; simpl.
  - destruct (ltb (key b) (key a)) eqn:E1; destruct (ltb (key a) (key b)) eqn:E2; simpl;
      rewrite ?E1, ?E2; auto.
    + apply ltb_asym in E1. congruence.
    + exfalso. apply Hab. apply ltb_total; auto.
  - destruct (ltb (key y) (key b)) eqn:Eyb; destruct (ltb (key y) (key a)) eqn:Eya; simpl;
      rewrite ?Eyb, ?Eya.
    + rewrite IH. reflexivity.
    + (* key a <= key y < key b *)
      assert (Eab : ltb (key a) (key b) = true) by (eapply ltb_le_lt; eauto).
      rewrite Eab; simpl; rewrite ?Eyb; reflexivity.
    + assert (Eba : ltb (key b) (key a) = true) by (eapply ltb_le_lt; eauto).
      rewrite Eba; simpl; rewrite ?Eya; reflexivity.
    + destruct (ltb (key b) (key a)) eqn:E1; destruct (ltb (key a) (key b)) eqn:E2;
        rewrite ?Eyb, ?Eya; auto.
      * apply ltb_asym in E1. congruence.
      * exfalso. apply Hab. apply ltb_total; auto.
Qed.

Lemma sort_by_key_perm_eq (l1 l2 : list string) :
  Permutation l1 l2 -> NoDup (map key l1) -> sort_by_key l1 = sort_by_key l2.
Proof.
  induction 1 as [| x l1 l2 Hp IH | x y l | l1 l2 l3 H12 IH12 H23 IH23]; simpl; intros Hnd.
  - reflexivity.
  - inversion Hnd; subst. rewrite IH; auto.
  - simpl in Hnd. inversion Hnd as [|? ? Hy Hnd']; subst.
    inversion Hnd' as [|? ? Hx Hnd'']; subst.
    apply insert_comm. intro E. apply Hy. rewrite E. left. reflexivity.
  - rewrite IH12 by exact Hnd. apply IH23.
    eapply Permutation_NoDup; [apply Permutation_map; exact H12 | exact Hnd].
Qed.

Lemma insert_perm (x : string) (l : list string) : Permutation (insert x l) (x :: l).
Proof.
  induction l as [|y l IH]; simpl; [reflexivity|].
  destruct (ltb (key y) (key x)).
  - rewrite IH. apply perm_swap.
  - reflexivity.
Qed.

Lemma sort_by_key_perm (l : list string) : Permutation (sort_by_key l) l.
Proof.
  induction l as [|x l IH]; simpl; [reflexivity|].
  rewrite insert_perm. apply perm_skip. exact IH.
Qed.

Lemma insert_sorted (x : string) (l : list string) :
  Sorted key_le l -> Sorted key_le (insert x l).
Proof.
  induction 1 as [|y l Hs IH Hhd]; simpl.
  - repeat constructor.
  - destruct (ltb (key y) (key x)) eqn:E.
    + constructor; [exact IH|].
      destruct l as [|z l]; simpl.
      * constructor. unfold key_le. apply ltb_asym. exact E.
      * destruct (ltb (key z) (key x)); constructor; unfold key_le.
        -- inversion Hhd; assumption.
        -- apply ltb_asym. exact E.
    + constructor; [constructor; assumption|]. constructor. exact E.
Qed.

Lemma sort_by_key_sorted (l : list string) : Sorted key_le (sort_by_key l).
Proof. induction l; simpl; [constructor | apply insert_sorted; assumption]. Qed.

Lemma split_on_nonempty (sep : ascii) (s : string) : split_on sep s <> [].
Proof.
  destruct s as [|c s]; simpl; [discriminate|].
  destruct (Ascii.eqb c sep); [discriminate|]. destruct (split_on sep s); discriminate.
Qed.

Lemma no_sep_cons (sep c : ascii) (x : string) :
  no_sep sep (String c x) -> c <> sep /\ no_sep sep x.
Proof. unfold no_sep; simpl; intuition. Qed.

Lemma split_no_sep (sep : ascii) (x : string) : no_sep sep x -> split_on sep x = [x].
Proof.
  induction x as [|c x IH]; simpl; [reflexivity|].
  intros H. apply no_sep_cons in H as [Hc Hx].
  destruct (Ascii.eqb_spec c sep); [contradiction|]. rewrite IH by exact Hx. reflexivity.
Qed.

Lemma split_app_sep (sep : ascii) (x r : string) :
  no_sep sep x -> split_on sep (x ++ String sep r) = x :: split_on sep r.
Proof.
  induction x as [|c x IH]; simpl; intros H.
  - rewrite Ascii.eqb_refl. reflexivity.
  - apply no_sep_cons in H as [Hc Hx].
    destruct (Ascii.eqb_spec c sep); [contradiction|]. rewrite IH by exact Hx. reflexivity.
Qed.

Lemma split_join (l : list string) :
  l <> [] -> Forall (no_sep "&") l -> split_on "&" (join "&" l) = l.
Proof.
  induction l as [|x l IH]; intros Hne Hf; [congruence|].
  inversion Hf as [|? ? Hx Hl]; subst.
  destruct l as [|y l].
  - apply split_no_sep. exact Hx.
  - change (join "&" (x :: y :: l)) with (x ++ String "&" (join "&" (y :: l))).
    rewrite split_app_sep by exact Hx. rewrite IH; [reflexivity | discriminate | exact Hl].
Qed.

Lemma join_cons_String (c : ascii) (w : string) (ws : list string) :
  join "&" (String c w :: ws) = String c (join "&" (w :: ws)).
Proof. destruct ws; reflexivity. Qed.

Lemma join_split (s : string) : join "&" (split_on "&" s) = s.
Proof.
  induction s as [|c s IH]; simpl; [reflexivity|].
  destruct (Ascii.eqb_spec c "&") as [E|E].
  - subst c. destruct (split_on "&" s) as [|w ws] eqn:Hs.
    + exfalso. exact (split_on_nonempty _ _ Hs).
    + change (join "&" (EmptyString :: w :: ws)) with (String "&" (join "&" (w :: ws))).
      rewrite IH. reflexivity.
  - destruct (split_on "&" s) as [|w ws] eqn:Hs.
    + exfalso. exact (split_on_nonempty _ _ Hs).
    + rewrite join_cons_String, IH. reflexivity.
Qed.

Lemma join_empty (l : list string) : join "&" l = EmptyString -> l = [] \/ l = [EmptyString].
Proof.
  destruct l as [|x [|y l]]; simpl; intros H; auto.
  - subst. auto.
  - destruct x; discriminate.
Qed.

Lemma perm_small (l1 l2 : list string) :
  Permutation l1 l2 -> (l1 = [] \/ l1 = [EmptyString]) -> l2 = [] \/ l2 = [EmptyString].
Proof.
  intros Hp [E|E]; subst.
  - left. apply Permutation_nil. exact Hp.
  - right. apply Permutation_length_1_inv. exact Hp.
Qed.

(** The reassigned query string of [get_signature] on a joined list of pairs. *)
Lemma sorted_query_join (l : list string) :
  Forall (no_sep "&") l -> sorted_query (join "&" l) = join "&" (sort_by_key l).
Proof.
  intros Hf. unfold sorted_query.
  destruct (is_empty (join "&" l)) eqn:E; simpl.
  - destruct (join "&" l) eqn:J; [|discriminate].
    destruct (join_empty l J) as [-> | ->]; reflexivity.
  - rewrite split_join; [reflexivity| |exact Hf].
    intros ->. discriminate.
Qed.

Lemma sort_nonempty (qs : string) :
  is_empty qs = false -> is_empty (join "&" (sort_by_key (split_on "&" qs))) = false.
Proof.
  intros Hq. destruct (is_empty (join "&" (sort_by_key (split_on "&" qs)))) eqn:E; [|reflexivity].
  exfalso.
  destruct (join "&" (sort_by_key (split_on "&" qs))) eqn:J; [|discriminate].
  apply join_empty in J. apply (perm_small _ _ (sort_by_key_perm _)) in J.
  rewrite <- (join_split qs) in Hq.
  destruct J as [J|J]; rewrite J in Hq; discriminate.
Qed.

End SignatureFacts.

(** ** Claims about [get_signature] *)

Module SignatureClaims.
Import PyStr Crypto Signature SignatureFacts.

(** C3: [get_signature] returns base64(HMAC-SHA256(secret, message)) where the
    message is the timestamp, the upper-cased method, the path, then ['?'] and
    the query pairs sorted by key when the query string is non-empty, then the
    body.  The sorted pairs are a permutation of the caller's pairs in key
    order.  Being a function, it yields the same signature on the same inputs. *)
Theorem get_signature_message (secret : string) (timestamp : Z)
        (method path query_string body : string) :
  exists sorted_pairs,
    Permutation sorted_pairs (split_on "&" query_string) /\
    Sorted key_le sorted_pairs /\
    get_signature secret timestamp method path query_string body =
    b64encode (hmac_sha256 (encode secret)
      (encode (str_Z timestamp ++ upper method ++ path ++
               (if is_empty query_string then EmptyString else "?" ++ join "&" sorted_pairs) ++ body))).
Proof.
  exists (sort_by_key (split_on "&" query_string)).
  split; [apply sort_by_key_perm|]. split; [apply sort_by_key_sorted|].
  unfold get_signature, message, sorted_query.
  destruct (is_empty query_string) eqn:Eq; simpl.
  - rewrite Eq. simpl. reflexivity.
  - rewrite (sort_nonempty _ Eq). simpl. reflexivity.
Qed.

(** C4 (counterexample): with a repeated key, two orders of the same pairs
    sign differently, because the stable sort by key keeps their order. *)
Lemma query_order_duplicate_key_counterexample :
  Permutation ["a=2"; "a=1"] ["a=1"; "a=2"] /\
  get_signature "secret" 1700000000000 "GET" "/api/v2/mix/account/accounts" (join "&" ["a=2"; "a=1"]) ""
  <> get_signature "secret" 1700000000000 "GET" "/api/v2/mix/account/accounts" (join "&" ["a=1"; "a=2"]) "".
Proof.
  split; [apply perm_swap|].
  apply String.eqb_neq. vm_compute. reflexivity.
Qed.

(** C4 (amended): when the pairs have pairwise distinct keys and contain no
    ['&'], every order of them gives the same signature. *)
Theorem get_signature_query_order (secret : string) (timestamp : Z) (method path body : string)
        (pairs1 pairs2 : list string) :
  Forall (no_sep "&") pairs1 ->
  NoDup (map key pairs1) ->
  Permutation pairs1 pairs2 ->
  get_signature secret timestamp method path (join "&" pairs1) body =
  get_signature secret timestamp method path (join "&" pairs2) body.
Proof.
  intros Hf Hnd Hp.
  assert (Hf2 : Forall (no_sep "&") pairs2) by (eapply Permutation_Forall; eauto).
  unfold get_signature, message.
  rewrite (sorted_query_join _ Hf), (sorted_query_join _ Hf2).
  rewrite (sort_by_key_perm_eq _ _ Hp Hnd). reflexivity.
Qed.

(** Witness: the spec's example, ["b=2&a=1"] against ["a=1&b=2"]. *)
Lemma get_signature_query_order_witness :
  Forall (no_sep "&") ["b=2"; "a=1"] /\ NoDup (map key ["b=2"; "a=1"]) /\
  Permutation ["b=2"; "a=1"] ["a=1"; "b=2"] /\
  get_signature "secret" 1700000000000 "GET" "/api/v2/mix/account/accounts" "b=2&a=1" ""
  = get_signature "secret" 1700000000000 "GET" "/api/v2/mix/account/accounts" "a=1&b=2" "".
Proof.
  assert (Hf : Forall (no_sep "&") ["b=2"; "a=1"]).
  { repeat constructor; unfold no_sep; simpl; intuition discriminate. }
  assert (Hn : NoDup (map key ["b=2"; "a=1"])).
  { vm_compute. constructor; [simpl; intuition discriminate | repeat constructor; simpl; tauto]. }
  assert (Hp : Permutation ["b=2"; "a=1"] ["a=1"; "b=2"]) by apply perm_swap.
  split; [exact Hf|]. split; [exact Hn|]. split; [exact Hp|].
  exact (get_signature_query_order "secret" 1700000000000 "GET" "/api/v2/mix/account/accounts" ""
           ["b=2"; "a=1"] ["a=1"; "b=2"] Hf Hn Hp).
Defined.

End SignatureClaims.

(** ** The retry loop of [request] *)

Module RequestFacts.
Import PyStr Signature Client Kinds.

(** Split every test of the loop body, keeping the recursive calls whole. *)
Ltac split_body :=
  repeat match goal with
  | |- context [if ?b then _ else _] => destruct b eqn:?
  | |- context [match ?x with _ => _ end] =>
      lazymatch x with
      | loop _ _ _ _ _ _ _ _ _ _ _ => fail
      | context [match _ with _ => _ end] => fail
      | context [loop _ _ _ _ _ _ _ _ _ _ _] => fail
      | _ => destruct x eqn:?
      end
  end.

(** Name the result of a recursive call of the loop and use the induction
    hypothesis [IH] on it. *)
Ltac use_rec IH :=
  match goal with
  | |- context [loop ?rnd ?tp ?sync ?m ?u ?h ?pl ?mx ?f ?r ?w] =>
      let E := fresh "E" in
      specialize (IH r w); destruct (loop rnd tp sync m u h pl mx f r w) as [[? ?] ?] eqn:E
  end.

Section Loop.
Variable clock : nat -> Z.
Variable rand : nat -> Q.
Variable transport : string -> nat -> response.

(** Every result of the loop is the body of a 200 answer it received, or a
    failure object. *)
Lemma loop_result_shape (sync : world -> Z * list event * world) (m u : string)
      (h : list (string * string)) (pl : option json) (max_retries : Z) (fuel : nat) :
  forall (retries : Z) (w : world),
    let '(r, tr, _) := loop rand transport sync m u h pl max_retries fuel retries w in
    success_in r tr \/ http_failure r \/ exception_failure r.
Proof.
  induction fuel as [|f IH]; intros retries w; cbn [loop].
  - right; right; left; reflexivity.
  - split_body.
    all: repeat match goal with H : (_ || _)%bool = true |- _ =>
                  apply orb_true_iff in H; destruct H as [H|H] end.
    all: repeat match goal with H : (_ =? _)%Z = true |- _ => apply Z.eqb_eq in H; subst end.
    all: try (exfalso; match goal with
              | H : (?a =? ?b)%Z = true |- _ => apply Z.eqb_eq in H; discriminate H
              | H : (?a =? ?b)%Z = false |- _ => apply Z.eqb_neq in H; apply H; reflexivity
              | H : false = true |- _ => discriminate H
              | H : @eq Z _ _ |- _ => discriminate H
              | H : startswith "" _ = true |- _ => discriminate H
              end).
    all: first
      [ use_rec IH; cbn iota;
        destruct IH as [(m' & u' & h' & pl' & t' & Hin) | [Hf | He]];
        [ left; exists m', u', h', pl', t'; simpl; intuition
        | right; left; exact Hf
        | right; right; exact He ]
      | left; do 5 eexists; left; reflexivity
      | right; left; do 2 eexists; left; do 2 eexists;
        split; [reflexivity | split; [| reflexivity]];
        apply orb_true_iff; first [left; assumption | right; assumption]
      | right; left; do 2 eexists; right; left; eexists;
        split; [| reflexivity]; first [left; split; reflexivity | right; split; reflexivity]
      | right; left; do 2 eexists; right; right; reflexivity
      | right; right; left; reflexivity
      | right; right; right; eexists; first [left; reflexivity | right; reflexivity] ].
Qed.

(** The loop only sends to its own URL, besides what [sync] sends. *)
Lemma loop_sends_only (ok : string -> Prop) (sync : world -> Z * list event * world) (m u : string)
      (h : list (string * string)) (pl : option json) (max_retries : Z) (fuel : nat) :
  ok u ->
  (forall w, exists extra, sent (snd (sync w)) = (sent w ++ extra)%list /\ Forall ok extra) ->
  forall (retries : Z) (w : world),
    exists extra, sent (snd (loop rand transport sync m u h pl max_retries fuel retries w))
                  = (sent w ++ extra)%list /\ Forall ok extra.
Proof.
  intros Hu Hsync. induction fuel as [|f IH]; intros retries w; cbn [loop].
  - exists []. rewrite app_nil_r. split; [reflexivity | constructor].
  - unfold send, draw; cbv beta iota zeta; cbn [sent clock_reads rand_draws]. split_body.
    all: try (exists []; rewrite app_nil_r; split; [reflexivity | constructor]).
    all: try (exists [u]; split; [reflexivity | constructor; [exact Hu | constructor]]).
    all: try (use_rec IH; destruct IH as [e2 [He2 Hf2]]; cbn [snd sent] in *;
              exists (u :: e2); rewrite He2, <- app_assoc;
              split; [reflexivity | constructor; assumption]).
    all: match goal with
         | Hs : ?s ?w1 = (?p, ?w2) |- _ =>
             destruct (Hsync w1) as [e1 [He1 Hf1]]; rewrite Hs in He1; cbn [snd] in He1;
             use_rec IH; destruct IH as [e2 [He2 Hf2]]; cbn [snd sent] in *;
             exists (u :: e1 ++ e2); rewrite He2, He1;
             rewrite <- !app_assoc; split; [reflexivity | constructor; [exact Hu | apply Forall_app; auto]]
         end.
Qed.

Ltac enter_attempt Hr Ht :=
  cbn [loop];
  replace (negb (_ <=? _)%Z) with false by (symmetry; apply negb_false_iff, Z.leb_le; lia);
  unfold send, draw; cbv beta iota zeta; cbn [sent clock_reads rand_draws];
  rewrite Ht; cbv beta iota zeta.

Lemma loop_step_auth (sync : world -> Z * list event * world) (m u : string)
      (h : list (string * string)) (pl : option json) (max_retries : Z) (f : nat)
      (retries : Z) (w : world) (st : Z) (p : option json) (t : string) :
  (retries <= max_retries)%Z ->
  st = 401%Z \/ st = 403%Z ->
  transport u (count_occ string_dec (sent w) u) = Resp st p t ->
  loop rand transport sync m u h pl max_retries (S f) retries w =
  (JObj [("status", JStr "FAILED"); ("status_code", JNum st);
         ("error", JStr (if (st =? 401)%Z then "Authentication error" else "Access denied"));
         ("response_data", match p with Some j => j | None => JObj [("error", JStr t)] end)],
   [Send m u h pl (Resp st p t)], after_send u w).
Proof.
  intros Hr Hst Ht. enter_attempt Hr Ht.
  destruct Hst as [-> | ->]; reflexivity.
Qed.

Lemma loop_step_ok (sync : world -> Z * list event * world) (m u : string)
      (h : list (string * string)) (pl : option json) (max_retries : Z) (f : nat)
      (retries : Z) (w : world) (j : json) (t : string) :
  (retries <= max_retries)%Z ->
  transport u (count_occ string_dec (sent w) u) = Resp 200 (Some j) t ->
  loop rand transport sync m u h pl max_retries (S f) retries w =
  (j, [Send m u h pl (Resp 200 (Some j) t)], after_send u w).
Proof. intros Hr Ht. enter_attempt Hr Ht. reflexivity. Qed.

(** HTTP >= 500 on the last allowed attempt falls through to "Other Errors". *)
Lemma loop_step_server_error_last (sync : world -> Z * list event * world) (m u : string)
      (h : list (string * string)) (pl : option json) (max_retries : Z) (f : nat)
      (retries : Z) (w : world) (st : Z) (p : option json) (t : string) :
  retries = max_retries ->
  (500 <= st)%Z ->
  transport u (count_occ string_dec (sent w) u) = Resp st p t ->
  loop rand transport sync m u h pl max_retries (S f) retries w =
  (JObj [("status", JStr "FAILED"); ("status_code", JNum st);
         ("response_data", match p with Some j => j | None => JObj [("error", JStr t)] end)],
   [Send m u h pl (Resp st p t)], after_send u w).
Proof.
  intros Hr Hst Ht. enter_attempt Hr Ht.
  replace (st =? 200)%Z with false by (symmetry; apply Z.eqb_neq; lia).
  replace (st =? 400)%Z with false by (symmetry; apply Z.eqb_neq; lia).
  replace (st =? 401)%Z with false by (symmetry; apply Z.eqb_neq; lia).
  replace (st =? 403)%Z with false by (symmetry; apply Z.eqb_neq; lia).
  replace (st =? 429)%Z with false by (symmetry; apply Z.eqb_neq; lia).
  replace (500 <=? st)%Z with true by (symmetry; apply Z.leb_le; lia).
  replace (retries <? max_retries)%Z with false by (symmetry; apply Z.ltb_ge; lia).
  cbn. reflexivity.
Qed.

(** One exponential back-off step: the attempt, then a sleep of
    [min(30, 2 ** retries)] plus the next random draw, then the next attempt. *)
Lemma loop_step_backoff (sync : world -> Z * list event * world) (m u : string)
      (h : list (string * string)) (pl : option json) (max_retries : Z) (f : nat)
      (retries : Z) (w : world) (resp : response) :
  (retries <= max_retries)%Z ->
  backoff_retried resp retries max_retries = true ->
  transport u (count_occ string_dec (sent w) u) = resp ->
  loop rand transport sync m u h pl max_retries (S f) retries w =
  let '(r, tr, w3) :=
      loop rand transport sync m u h pl max_retries f (retries + 1)
           (mkWorld (sent w ++ [u])%list (clock_reads w) (S (rand_draws w))) in
  (r, Send m u h pl resp :: Sleep (backoff_wait retries (rand (rand_draws w))) :: tr, w3).
Proof.
  intros Hr Hk Ht. enter_attempt Hr Ht.
  destruct resp as [st p t | msg | msg]; cbn [backoff_retried] in Hk.
  - apply orb_true_iff in Hk as [H429 | H5].
    + apply Z.eqb_eq in H429. subst st. reflexivity.
    + apply andb_true_iff in H5 as [H5 Hlt]. apply Z.leb_le in H5.
      replace (st =? 200)%Z with false by (symmetry; apply Z.eqb_neq; lia).
      replace (st =? 400)%Z with false by (symmetry; apply Z.eqb_neq; lia).
      replace (st =? 401)%Z with false by (symmetry; apply Z.eqb_neq; lia).
      replace (st =? 403)%Z with false by (symmetry; apply Z.eqb_neq; lia).
      replace (st =? 429)%Z with false by (symmetry; apply Z.eqb_neq; lia).
      replace (500 <=? st)%Z with true by (symmetry; apply Z.leb_le; lia).
      rewrite Hlt. reflexivity.
  - apply Z.ltb_lt in Hk. replace (max_retries <=? retries)%Z with false by (symmetry; apply Z.leb_gt; lia).
    reflexivity.
  - apply Z.ltb_lt in Hk. replace (max_retries <=? retries)%Z with false by (symmetry; apply Z.leb_gt; lia).
    reflexivity.
Qed.

(** A clock-skew 400 while the budget remains: sleep 1 s, call
    [get_server_time], and attempt again with the same headers. *)
Lemma loop_step_drift (sync : world -> Z * list event * world) (m u : string)
      (h : list (string * string)) (pl : option json) (max_retries : Z) (f : nat)
      (retries : Z) (w : world) (kvs : list (string * json)) (code t : string) :
  (retries < max_retries)%Z ->
  assoc "code" kvs = Some (JStr code) ->
  In code drift_codes ->
  transport u (count_occ string_dec (sent w) u) = Resp 400 (Some (JObj kvs)) t ->
  loop rand transport sync m u h pl max_retries (S f) retries w =
  let '(ts, sub, w2) := sync (after_send u w) in
  let '(r, tr, w3) := loop rand transport sync m u h pl max_retries f (retries + 1) w2 in
  (r, Send m u h pl (Resp 400 (Some (JObj kvs)) t) :: Sleep 1 :: ServerTime sub ts :: tr, w3).
Proof.
  intros Hr Hc Hin Ht. enter_attempt Hr Ht.
  cbn [dict_get]. rewrite Hc.
  replace (existsb (String.eqb code) drift_codes) with true.
  - replace (retries <? max_retries)%Z with true by (symmetry; apply Z.ltb_lt; lia).
    reflexivity.
  - symmetry. apply existsb_exists. exists code. split; [exact Hin | apply String.eqb_refl].
Qed.

End Loop.
End RequestFacts.

(** ** [request] as its retry loop *)

Module RequestRun.
Import PyStr Signature Client Kinds RequestFacts.

Section Run.
Variable clock : nat -> Z.
Variable rand : nat -> Q.
Variable transport : string -> nat -> response.

Lemma request_time_sends (c : BitgetAPI) (depth : nat) :
  forall w, exists extra,
    sent (snd (request clock rand transport depth c "get" TIME_ENDPOINT None None 3 w))
    = (sent w ++ extra)%list /\ Forall (fun x => x = time_url c) extra.
Proof.
  induction depth as [|d IH]; intros w; cbn [request read_clock];
  match goal with
  | |- context [loop ?r ?t ?s ?m ?u ?h ?pl ?mx ?f ?rt ?w1] =>
      assert (HS : sync_ok c s);
      [ | destruct (loop_sends_only r t (fun x => x = time_url c) s m u h pl mx f eq_refl HS rt w1)
            as [e [He Hf]];
          exists e; rewrite He; split; [reflexivity | exact Hf] ]
  end.
  - intros w'. exists []. rewrite app_nil_r. split; [reflexivity | constructor].
  - intros w'. destruct (IH w') as [e [He Hf]].
    destruct (request clock rand transport d c "get" TIME_ENDPOINT None None 3 w') as [[r tr] w''].
    cbn [snd] in He. destruct (server_time_of r); cbn; exists e; auto.
Qed.

Lemma request_as_loop (depth : nat) (c : BitgetAPI) (method endpoint : string)
      (params : option (list (string * string))) (body : option (list (string * json)))
      (max_retries : Z) (w : world) :
  exists sync h,
    sync_ok c sync /\
    request clock rand transport depth c method endpoint params body max_retries w =
    loop rand transport sync method (request_url c method endpoint params) h
         (if is_get method then None else option_map JObj body)
         max_retries (Z.to_nat (max_retries + 1)) 0
         (mkWorld (sent w) (S (clock_reads w)) (rand_draws w)).
Proof.
  exists (server_time_sync clock rand transport depth c); eexists.
  split; cycle 1; [destruct depth; reflexivity|].
  intros w'. destruct depth as [|d]; cbn [server_time_sync read_clock snd sent].
  - exists []. rewrite app_nil_r. split; [reflexivity | constructor].
  - destruct (request_time_sends c d w') as [e [He Hf]].
    destruct (request clock rand transport d c "get" TIME_ENDPOINT None None 3 w') as [[r tr] w''].
    cbn [snd] in He. destruct (server_time_of r); cbn [snd sent]; exists e; auto.
Qed.

Lemma count_occ_others (u v : string) (l : list string) :
  u <> v -> Forall (fun x => x = v) l -> count_occ string_dec l u = 0%nat.
Proof.
  intros Huv. induction 1 as [|x l Hx Hl IH]; [reflexivity|].
  subst x. cbn. destruct (string_dec v u); [congruence | exact IH].
Qed.

End Run.
End RequestRun.

(** ** Claims about [request] and the domain methods *)

Module RequestClaims.
Import PyStr Signature Client Kinds RequestFacts RequestRun.

Ltac budget :=
  match goal with
  | |- context [Z.to_nat (?m + 1)] =>
      replace (Z.to_nat (m + 1)) with (S (Z.to_nat m)) by lia
  end.

(** C5: when the first attempt gets HTTP 401 (or 403), [request] makes that
    one attempt and returns the authentication-error (access-denied)
    failure: the trace holds that single attempt, no sleep, and no random
    draw was made. *)
Theorem request_auth_failure_terminal (clock : nat -> Z) (rand : nat -> Q)
        (transport : string -> nat -> response) (depth : nat) (c : BitgetAPI)
        (method endpoint : string) (params : option (list (string * string)))
        (body : option (list (string * json))) (max_retries : Z) (w : world)
        (st : Z) (p : option json) (t : string) :
  (0 <= max_retries)%Z ->
  st = 401%Z \/ st = 403%Z ->
  transport (request_url c method endpoint params)
            (count_occ string_dec (sent w) (request_url c method endpoint params)) = Resp st p t ->
  exists h pl,
    request clock rand transport depth c method endpoint params body max_retries w =
    (JObj [("status", JStr "FAILED"); ("status_code", JNum st);
           ("error", JStr (if (st =? 401)%Z then "Authentication error" else "Access denied"));
           ("response_data", match p with Some j => j | None => JObj [("error", JStr t)] end)],
     [Send method (request_url c method endpoint params) h pl (Resp st p t)],
     mkWorld (sent w ++ [request_url c method endpoint params])%list (S (clock_reads w)) (rand_draws w)).
Proof.
  intros Hm Hst Ht.
  destruct (request_as_loop clock rand transport depth c method endpoint params body max_retries w)
    as (sync & h & _ & ->).
  exists h, (if is_get method then None else option_map JObj body).
  budget. apply loop_step_auth; [lia | exact Hst | exact Ht].
Qed.

(** Witness: a 401 on the account endpoint. *)
Lemma request_auth_failure_terminal_witness :
  exists h pl,
    request Scenario.clock Scenario.rand (Scenario.always (Resp 401 None "Unauthorized"))
            default_depth Scenario.client "get" "api/v2/mix/account/accounts"
            (Some [("productType", PRODUCT_TYPE)]) None 3 fresh_world =
    (JObj [("status", JStr "FAILED"); ("status_code", JNum 401);
           ("error", JStr "Authentication error");
           ("response_data", JObj [("error", JStr "Unauthorized")])],
     [Send "get" Scenario.accounts_url h pl (Resp 401 None "Unauthorized")],
     mkWorld [Scenario.accounts_url] 1 0).
Proof.
  exact (request_auth_failure_terminal Scenario.clock Scenario.rand
           (Scenario.always (Resp 401 None "Unauthorized")) default_depth Scenario.client
           "get" "api/v2/mix/account/accounts" (Some [("productType", PRODUCT_TYPE)]) None 3
           fresh_world 401 None "Unauthorized"
           ltac:(lia) (or_introl eq_refl) eq_refl).
Defined.

(** C2 (counterexample): against a transport that always answers HTTP 500,
    [get_account_info] (max_retries = 3) makes 4 attempts and returns the
    last response as a status_code failure, not "Max retries exceeded". *)
Lemma server_error_exhaustion_counterexample :
  match get_account_info Scenario.clock Scenario.rand
          (Scenario.always (Resp 500 None "Internal Server Error"))
          default_depth Scenario.client None fresh_world with
  | (o, _, w') =>
      o = Return (JObj [("status", JStr "FAILED"); ("status_code", JNum 500);
                        ("response_data", JObj [("error", JStr "Internal Server Error")])]) /\
      o <> Return max_retries_exceeded /\ length (sent w') = 4%nat
  end.
Proof.
  vm_compute. split; [reflexivity|]. split; [discriminate | reflexivity].
Qed.

(** C2 (amended): with max_retries = 3 and HTTP 500 on every attempt,
    [request] makes exactly 4 attempts with a back-off sleep between
    consecutive ones (none after the last) and returns
    [{"status": "FAILED", "status_code": 500, "response_data": ...}]. *)
Theorem request_server_error_exhaustion (clock : nat -> Z) (rand : nat -> Q)
        (transport : string -> nat -> response) (depth : nat) (c : BitgetAPI)
        (method endpoint : string) (params : option (list (string * string)))
        (body : option (list (string * json))) (w : world) (p : option json) (t : string) :
  (forall n, transport (request_url c method endpoint params) n = Resp 500 p t) ->
  exists h pl,
    let u := request_url c method endpoint params in
    let ev := Send method u h pl (Resp 500 p t) in
    let k := rand_draws w in
    request clock rand transport depth c method endpoint params body 3 w =
    (JObj [("status", JStr "FAILED"); ("status_code", JNum 500);
           ("response_data", match p with Some j => j | None => JObj [("error", JStr t)] end)],
     [ev; Sleep (backoff_wait 0 (rand k)); ev; Sleep (backoff_wait 1 (rand (S k)));
      ev; Sleep (backoff_wait 2 (rand (S (S k)))); ev],
     mkWorld (sent w ++ [u; u; u; u])%list (S (clock_reads w)) (S (S (S k)))).
Proof.
  intros Ht.
  destruct (request_as_loop clock rand transport depth c method endpoint params body 3 w)
    as (sync & h & _ & ->).
  exists h, (if is_get method then None else option_map JObj body). cbv zeta.
  change (Z.to_nat (3 + 1)) with 4%nat.
  rewrite loop_step_backoff with (resp := Resp 500 p t) by (try apply Ht; reflexivity || lia).
  rewrite loop_step_backoff with (resp := Resp 500 p t) by (try apply Ht; reflexivity || lia).
  rewrite loop_step_backoff with (resp := Resp 500 p t) by (try apply Ht; reflexivity || lia).
  rewrite loop_step_server_error_last with (st := 500%Z) (p := p) (t := t) by (try apply Ht; reflexivity || lia).
  unfold after_send; cbn [sent clock_reads rand_draws]. rewrite <- !app_assoc. reflexivity.
Qed.

(** Witness: the account endpoint answering 500 every time. *)
Lemma request_server_error_exhaustion_witness :
  exists h pl,
    let u := Scenario.accounts_url in
    let ev := Send "get" u h pl (Resp 500 None "Internal Server Error") in
    request Scenario.clock Scenario.rand (Scenario.always (Resp 500 None "Internal Server Error"))
            default_depth Scenario.client "get" "api/v2/mix/account/accounts"
            (Some [("productType", PRODUCT_TYPE)]) None 3 fresh_world =
    (JObj [("status", JStr "FAILED"); ("status_code", JNum 500);
           ("response_data", JObj [("error", JStr "Internal Server Error")])],
     [ev; Sleep (backoff_wait 0 (Scenario.rand 0)); ev; Sleep (backoff_wait 1 (Scenario.rand 1));
      ev; Sleep (backoff_wait 2 (Scenario.rand 2)); ev],
     mkWorld [u; u; u; u] 1 3).
Proof.
  exact (request_server_error_exhaustion Scenario.clock Scenario.rand
           (Scenario.always (Resp 500 None "Internal Server Error")) default_depth Scenario.client
           "get" "api/v2/mix/account/accounts" (Some [("productType", PRODUCT_TYPE)]) None
           fresh_world None "Internal Server Error" (fun n => eq_refl)).
Defined.

(** C10: with max_retries = 3 and HTTP 429 on every attempt, [request] makes
    exactly 4 attempts, sleeps a full back-off after each of them (the
    fourth included, though no fifth request follows, because the 429
    branch does not check the budget) and returns
    [{"status": "FAILED", "error": "Max retries exceeded"}], a value with no
    status_code and no response body. *)
Theorem request_rate_limit_exhaustion (clock : nat -> Z) (rand : nat -> Q)
        (transport : string -> nat -> response) (depth : nat) (c : BitgetAPI)
        (method endpoint : string) (params : option (list (string * string)))
        (body : option (list (string * json))) (w : world) (p : option json) (t : string) :
  (forall n, transport (request_url c method endpoint params) n = Resp 429 p t) ->
  (exists h pl,
    let u := request_url c method endpoint params in
    let ev := Send method u h pl (Resp 429 p t) in
    let k := rand_draws w in
    request clock rand transport depth c method endpoint params body 3 w =
    (max_retries_exceeded,
     [ev; Sleep (backoff_wait 0 (rand k)); ev; Sleep (backoff_wait 1 (rand (S k)));
      ev; Sleep (backoff_wait 2 (rand (S (S k)))); ev; Sleep (backoff_wait 3 (rand (S (S (S k)))))],
     mkWorld (sent w ++ [u; u; u; u])%list (S (clock_reads w)) (S (S (S (S k)))))) /\
  max_retries_exceeded = JObj [("status", JStr "FAILED"); ("error", JStr "Max retries exceeded")].
Proof.
  intros Ht. split; [|reflexivity].
  destruct (request_as_loop clock rand transport depth c method endpoint params body 3 w)
    as (sync & h & _ & ->).
  exists h, (if is_get method then None else option_map JObj body). cbv zeta.
  change (Z.to_nat (3 + 1)) with 4%nat.
  do 4 (rewrite loop_step_backoff with (resp := Resp 429 p t) by (try apply Ht; reflexivity || lia)).
  cbn [loop sent clock_reads rand_draws]. rewrite <- !app_assoc. reflexivity.
Qed.

(** Witness: the account endpoint answering 429 every time. *)
Lemma request_rate_limit_exhaustion_witness :
  (exists h pl,
    let u := Scenario.accounts_url in
    let ev := Send "get" u h pl (Resp 429 None "Too Many Requests") in
    request Scenario.clock Scenario.rand (Scenario.always (Resp 429 None "Too Many Requests"))
            default_depth Scenario.client "get" "api/v2/mix/account/accounts"
            (Some [("productType", PRODUCT_TYPE)]) None 3 fresh_world =
    (max_retries_exceeded,
     [ev; Sleep (backoff_wait 0 (Scenario.rand 0)); ev; Sleep (backoff_wait 1 (Scenario.rand 1));
      ev; Sleep (backoff_wait 2 (Scenario.rand 2)); ev; Sleep (backoff_wait 3 (Scenario.rand 3))],
     mkWorld [u; u; u; u] 1 4)) /\
  max_retries_exceeded = JObj [("status", JStr "FAILED"); ("error", JStr "Max retries exceeded")].
Proof.
  exact (request_rate_limit_exhaustion Scenario.clock Scenario.rand
           (Scenario.always (Resp 429 None "Too Many Requests")) default_depth Scenario.client
           "get" "api/v2/mix/account/accounts" (Some [("productType", PRODUCT_TYPE)]) None
           fresh_world None "Too Many Requests" (fun n => eq_refl)).
Defined.

(** C6: whenever an attempt numbered [n] is retried after a 429, a 5xx or a
    transport exception, the loop sleeps [min(30, 2^n) + j] before the next
    attempt, where [j] is the next uniform draw; with [0 <= j < 1] the sleep
    lies in [[base, base + 1)], the base never exceeds 30 s, and the bases at
    attempts 0, 1, 2, 3 and 6 are 1, 2, 4, 8 and 30 s. *)
Theorem backoff_sleep_duration (rand : nat -> Q) (transport : string -> nat -> response)
        (sync : world -> Z * list event * world) (m u : string) (h : list (string * string))
        (pl : option json) (max_retries : Z) (f : nat) (n : Z) (w : world) (resp : response) :
  (0 <= n <= max_retries)%Z ->
  backoff_retried resp n max_retries = true ->
  transport u (count_occ string_dec (sent w) u) = resp ->
  (0 <= rand (rand_draws w) < 1)%Q ->
  loop rand transport sync m u h pl max_retries (S f) n w =
  (let '(r, tr, w3) :=
       loop rand transport sync m u h pl max_retries f (n + 1)
            (mkWorld (sent w ++ [u])%list (clock_reads w) (S (rand_draws w))) in
   (r, Send m u h pl resp :: Sleep (backoff_wait n (rand (rand_draws w))) :: tr, w3)) /\
  backoff_wait n (rand (rand_draws w)) = (inject_Z (Z.min 30 (2 ^ n)) + rand (rand_draws w))%Q /\
  (inject_Z (backoff_base n) <= backoff_wait n (rand (rand_draws w)) < inject_Z (backoff_base n) + 1)%Q /\
  (backoff_base n <= 30)%Z /\
  map backoff_base [0; 1; 2; 3; 6]%Z = [1; 2; 4; 8; 30]%Z.
Proof.
  intros Hn Hk Ht [Hj0 Hj1]. split; [apply loop_step_backoff; [lia | exact Hk | exact Ht]|].
  split; [reflexivity|]. split; [|split; [unfold backoff_base; lia | reflexivity]].
  unfold backoff_wait. split.
  - rewrite <- (Qplus_0_r (inject_Z (backoff_base n))) at 1.
    apply Qplus_le_r. exact Hj0.
  - apply Qplus_lt_r. exact Hj1.
Qed.

(** Witness: the third attempt (n = 2) of a rate-limited account request. *)
Lemma backoff_sleep_duration_witness :
  let w := mkWorld [Scenario.accounts_url; Scenario.accounts_url] 1 2 in
  let resp := Resp 429 None "Too Many Requests" in
  let sync := fun w : world => (0%Z, @nil event, w) in
  loop Scenario.rand (Scenario.always resp) sync "get" Scenario.accounts_url [] None 3 1 2 w =
  (let '(r, tr, w3) :=
       loop Scenario.rand (Scenario.always resp) sync "get" Scenario.accounts_url [] None 3 0 (2 + 1)
            (mkWorld (sent w ++ [Scenario.accounts_url])%list (clock_reads w) (S (rand_draws w))) in
   (r, Send "get" Scenario.accounts_url [] None resp :: Sleep (backoff_wait 2 (Scenario.rand 2)) :: tr, w3)) /\
  backoff_wait 2 (Scenario.rand 2) = (inject_Z (Z.min 30 (2 ^ 2)) + Scenario.rand 2)%Q /\
  (inject_Z (backoff_base 2) <= backoff_wait 2 (Scenario.rand 2) < inject_Z (backoff_base 2) + 1)%Q /\
  (backoff_base 2 <= 30)%Z /\
  map backoff_base [0; 1; 2; 3; 6]%Z = [1; 2; 4; 8; 30]%Z.
Proof.
  refine (backoff_sleep_duration Scenario.rand (Scenario.always (Resp 429 None "Too Many Requests"))
           (fun w : world => (0%Z, @nil event, w)) "get" Scenario.accounts_url [] None 3 0 2
           (mkWorld [Scenario.accounts_url; Scenario.accounts_url] 1 2)
           (Resp 429 None "Too Many Requests") _ _ _ _);
    [lia | reflexivity | reflexivity | split; vm_compute; [discriminate | reflexivity]].
Defined.

(** C8: when the first attempt gets HTTP 400 with an exchange code in the
    clock-skew set {40004, 40005, 40008} and the second gets HTTP 200,
    [request] (max_retries >= 1) calls get_server_time exactly once between
    the two attempts, sends to the target URL exactly twice and returns the
    parsed success body. *)
Theorem request_drift_then_success (clock : nat -> Z) (rand : nat -> Q)
        (transport : string -> nat -> response) (depth : nat) (c : BitgetAPI)
        (method endpoint : string) (params : option (list (string * string)))
        (body : option (list (string * json))) (max_retries : Z) (w : world)
        (code : string) (kvs : list (string * json)) (t1 : string) (j : json) (t2 : string) :
  (1 <= max_retries)%Z ->
  request_url c method endpoint params <> time_url c ->
  In code drift_codes ->
  assoc "code" kvs = Some (JStr code) ->
  transport (request_url c method endpoint params)
            (count_occ string_dec (sent w) (request_url c method endpoint params))
  = Resp 400 (Some (JObj kvs)) t1 ->
  transport (request_url c method endpoint params)
            (S (count_occ string_dec (sent w) (request_url c method endpoint params)))
  = Resp 200 (Some j) t2 ->
  exists h pl sub ts w',
    let u := request_url c method endpoint params in
    request clock rand transport depth c method endpoint params body max_retries w =
    (j, [Send method u h pl (Resp 400 (Some (JObj kvs)) t1); Sleep 1; ServerTime sub ts;
         Send method u h pl (Resp 200 (Some j) t2)], w') /\
    count_occ string_dec (sent w') u = S (S (count_occ string_dec (sent w) u)).
Proof.
  intros Hm Hu Hin Hc Ht1 Ht2.
  destruct (request_as_loop clock rand transport depth c method endpoint params body max_retries w)
    as (sync & h & Hs & ->).
  set (u := request_url c method endpoint params) in *.
  set (pl := if is_get method then None else option_map JObj body).
  replace (Z.to_nat (max_retries + 1)) with (S (S (Z.to_nat (max_retries - 1)))) by lia.
  rewrite loop_step_drift with (kvs := kvs) (code := code) (t := t1)
    by first [lia | assumption].
  set (w0 := mkWorld (sent w) (S (clock_reads w)) (rand_draws w)).
  destruct (Hs (after_send u w0)) as (extra & He & Hf).
  destruct (sync (after_send u w0)) as [[ts sub] w2].
  cbn [snd after_send sent] in He.
  assert (Hk : count_occ string_dec (sent w2) u = S (count_occ string_dec (sent w) u)).
  { rewrite He, !count_occ_app, (count_occ_others u (time_url c) extra Hu Hf).
    cbn. destruct (string_dec u u); [lia | congruence]. }
  rewrite loop_step_ok with (j := j) (t := t2) by (try rewrite Hk; first [lia | assumption]).
  exists h, pl, sub, ts, (after_send u w2). split; [reflexivity|].
  unfold after_send; cbn [sent]. rewrite count_occ_app, Hk. cbn.
  destruct (string_dec u u); [lia | congruence].
Qed.

(** Witness: the account endpoint rejects the first attempt with 40004 and
    accepts the second. *)
Lemma request_drift_then_success_witness :
  exists h pl sub ts w',
    let u := Scenario.accounts_url in
    request Scenario.clock Scenario.rand Scenario.drift_then_ok default_depth Scenario.client
            "get" "api/v2/mix/account/accounts" (Some [("productType", PRODUCT_TYPE)]) None 3
            fresh_world =
    (JObj [("code", JStr "00000"); ("data", JArr [])],
     [Send "get" u h pl (Resp 400 (Some (JObj [("code", JStr "40004"); ("msg", JStr "timestamp expired")])) "");
      Sleep 1; ServerTime sub ts;
      Send "get" u h pl (Resp 200 (Some (JObj [("code", JStr "00000"); ("data", JArr [])])) "")], w') /\
    count_occ string_dec (sent w') u = S (S (count_occ string_dec (sent fresh_world) u)).
Proof.
  refine (request_drift_then_success Scenario.clock Scenario.rand Scenario.drift_then_ok
            default_depth Scenario.client "get" "api/v2/mix/account/accounts"
            (Some [("productType", PRODUCT_TYPE)]) None 3 fresh_world "40004"
            [("code", JStr "40004"); ("msg", JStr "timestamp expired")] ""
            (JObj [("code", JStr "00000"); ("data", JArr [])]) "" _ _ _ _ _ _).
  - lia.
  - vm_compute. discriminate.
  - left. reflexivity.
  - reflexivity.
  - vm_compute. reflexivity.
  - vm_compute. reflexivity.
Defined.

(** Every call of [request] ends in one of the shapes of [call_shape]. *)
Lemma request_call_shape (clock : nat -> Z) (rand : nat -> Q)
      (transport : string -> nat -> response) (depth : nat) (c : BitgetAPI)
      (method endpoint : string) (params : option (list (string * string)))
      (body : option (list (string * json))) (max_retries : Z) (w : world) :
  call_shape (returned (request clock rand transport depth c method endpoint params body max_retries w)).
Proof.
  destruct (request_as_loop clock rand transport depth c method endpoint params body max_retries w)
    as (sync & h & _ & ->).
  match goal with
  | |- context [loop ?r ?t ?s ?m ?u ?h ?pl ?mx ?f ?rt ?w1] =>
      pose proof (loop_result_shape clock r t s m u h pl mx f rt w1) as H;
      destruct (loop r t s m u h pl mx f rt w1) as [[r' tr] w']
  end.
  exact H.
Qed.

(** C9 (counterexample): when the transport raises a connection error on
    every attempt, [get_account_info] returns
    [{"status": "FAILED", "error": "Request error: ..."}], a failure object
    with no status_code key. *)
Lemma transport_failure_without_status_code_counterexample :
  match get_account_info Scenario.clock Scenario.rand
          (Scenario.always (RequestException "Connection refused"))
          default_depth Scenario.client None fresh_world with
  | (Return (JObj kvs), _, _) =>
      kvs = [("status", JStr "FAILED"); ("error", JStr "Request error: Connection refused")] /\
      assoc "status_code" kvs = None
  | _ => False
  end.
Proof. vm_compute. split; reflexivity. Qed.

(** C9 (amended): [request], and every domain method of [BitgetAPI]
    (get_account_info, get_all_positions, post_order, delete_order,
    get_open_orders, set_leverage, adjust_position_margin, set_margin_mode,
    set_position_mode, get_future_prices, get_future_price,
    get_order_history, get_exchange_info, get_spot_account_info,
    get_transfer_records, get_withdrawal_records, get_deposit_records),
    either raises the ValueError of its argument check or returns one of:
    the parsed body of an HTTP 200 answer received in the trace; an HTTP
    failure object [{"status": "FAILED", "status_code": 400, "error_code":
    code, "error_msg": msg, "response_data": data}] for a string code
    starting with 4001 or 4002, [{"status": "FAILED", "status_code":
    401|403, "error": "Authentication error"|"Access denied",
    "response_data": data}], or [{"status": "FAILED", "status_code": s,
    "response_data": data}]; or, after an exception in the loop or an
    exhausted loop, [{"status": "FAILED", "error": e}] with e "Request
    error: ...", "Unexpected error: ..." or "Max retries exceeded", without
    status_code. *)
Theorem domain_method_result_shape (clock : nat -> Z) (rand : nat -> Q)
        (transport : string -> nat -> response) (depth : nat) (c : BitgetAPI) (w : world)
        (method endpoint : string) (params : option (list (string * string)))
        (body : option (list (string * json))) (max_retries : Z) :
  call_shape (returned (request clock rand transport depth c method endpoint params body max_retries w)) /\
  (forall call : Domain.domain_call,
      call_shape (Domain.run_domain_call clock rand transport depth c call w)).
Proof.
  split; [apply request_call_shape|].
  intros call; destruct call; cbn [Domain.run_domain_call].
  3: { unfold post_order; cbv zeta.
        destruct (String.eqb (lower _type) "limit" && negb (truthy price));
          [exact I | apply request_call_shape]. }
  3: { unfold delete_order; cbv zeta.
        destruct (negb (truthy order_id) && negb (truthy client_oid));
          [exact I | apply request_call_shape]. }
  all: unfold get_account_info, get_all_positions, Domain.get_open_orders, Domain.set_leverage, Domain.adjust_position_margin,
         Domain.set_margin_mode, Domain.set_position_mode, Domain.get_future_prices,
         Domain.get_future_price, Domain.get_order_history, Domain.get_exchange_info,
         Domain.get_spot_account_info, Domain.get_transfer_records,
         Domain.get_withdrawal_records, Domain.get_deposit_records; cbv zeta;
       apply request_call_shape.
Qed.

(** C7: [post_order] with order type limit (any case) and no truthy price,
    and [delete_order] with neither a truthy order_id nor a truthy
    client_oid, raise their ValueError at once: the trace is empty (no
    attempt, no sleep) and the world is untouched (no clock read for a
    timestamp, no signature, no draw). *)
Theorem domain_validation_before_network (clock : nat -> Z) (rand : nat -> Q)
        (transport : string -> nat -> response) (depth : nat) (c : BitgetAPI) (w : world)
        (symbol side quantity _type : string) (price : option string) (reduce_only : bool)
        (time_in_force margin_mode margin_coin : string)
        (trade_side client_oid take_profit stop_loss : option string)
        (dsymbol : string) (order_id del_client_oid : option string) (dmargin_coin : string) :
  lower _type = "limit" ->
  truthy price = false ->
  truthy order_id = false ->
  truthy del_client_oid = false ->
  post_order clock rand transport depth c symbol side quantity _type price reduce_only
             time_in_force margin_mode margin_coin trade_side client_oid take_profit stop_loss w
  = (ValueError "Price must be provided for limit orders", [], w) /\
  delete_order clock rand transport depth c dsymbol order_id del_client_oid dmargin_coin w
  = (ValueError "Either order_id or client_oid must be provided", [], w).
Proof.
  intros Ht Hp Ho Hc. split.
  - unfold post_order; cbv zeta. rewrite Ht, Hp. reflexivity.
  - unfold delete_order. rewrite Ho, Hc. reflexivity.
Qed.

(** Witness: a LIMIT order without price; a cancel with no order id and an
    empty client id. *)
Lemma domain_validation_before_network_witness :
  post_order Scenario.clock Scenario.rand Scenario.drift_then_ok default_depth Scenario.client
             "BTCUSDT" "buy" "0.01" "LIMIT" None false "gtc" "isolated" "USDT" None None None None
             fresh_world
  = (ValueError "Price must be provided for limit orders", [], fresh_world) /\
  delete_order Scenario.clock Scenario.rand Scenario.drift_then_ok default_depth Scenario.client
               "BTCUSDT" None (Some "") "USDT" fresh_world
  = (ValueError "Either order_id or client_oid must be provided", [], fresh_world).
Proof.
  refine (domain_validation_before_network Scenario.clock Scenario.rand Scenario.drift_then_ok
            default_depth Scenario.client fresh_world "BTCUSDT" "buy" "0.01" "LIMIT" None false
            "gtc" "isolated" "USDT" None None None None "BTCUSDT" None (Some "") "USDT" _ _ _ _);
    reflexivity.
Defined.

(** C1: the timestamp and ACCESS-SIGN are computed once per call, before the
    retry loop, and every attempt re-sends them. In the clock-skew scenario
    the retry after get_server_time (which reports 1700000005000) carries
    the very headers of the first attempt: ACCESS-TIMESTAMP 1700000000000
    and the signature made from it, not one made from a fresh timestamp. *)
Theorem drift_retry_resends_first_signature :
  match get_account_info Scenario.clock Scenario.rand Scenario.drift_then_ok default_depth
          Scenario.client None fresh_world with
  | (Return _, [Send _ _ h1 _ _; Sleep _; ServerTime _ ts; Send _ _ h2 _ _], _) =>
      h1 = h2 /\
      assoc "ACCESS-TIMESTAMP" h2 = Some "1700000000000" /\
      assoc "ACCESS-SIGN" h2 =
        Some (get_signature "secret" 1700000000000 "GET" "/api/v2/mix/account/accounts"
                            "productType=USDT-FUTURES" "") /\
      ts = 1700000005000%Z /\
      assoc "ACCESS-SIGN" h2 <>
        Some (get_signature "secret" ts "GET" "/api/v2/mix/account/accounts"
                            "productType=USDT-FUTURES" "")
  | _ => False
  end.
Proof.
  vm_compute. split; [reflexivity|]. split; [reflexivity|]. split; [reflexivity|].
  split; [reflexivity | discriminate].
Qed.

End RequestClaims.

(* ================================================================== *)
(** * Further properties of request, get_server_time and the domain methods *)

(** ** Sorting request parameters and building the query string *)

Module QueryFacts.
Import PyStr Signature Client SignatureFacts.

Lemma insert_param_comm (a b : string * string) (l : list (string * string)) :
  fst a <> fst b -> insert_param a (insert_param b l) = insert_param b (insert_param a l).
Proof.
  intros Hab. induction l as [|y l IH]; simpl.
  - destruct (ltb (fst b) (fst a)) eqn:E1; destruct (ltb (fst a) (fst b)) eqn:E2; simpl;
      rewrite ?E1, ?E2; auto.
    + apply ltb_asym in E1. congruence.
    + exfalso. apply Hab. apply ltb_total; auto.
  - destruct (ltb (fst y) (fst b)) eqn:Eyb; destruct (ltb (fst y) (fst a)) eqn:Eya; simpl;
      rewrite ?Eyb, ?Eya.
    + rewrite IH. reflexivity.
    + assert (Eab : ltb (fst a) (fst b) = true) by (eapply ltb_le_lt; eauto).
      rewrite Eab; simpl; rewrite ?Eyb; reflexivity.
    + assert (Eba : ltb (fst b) (fst a) = true) by (eapply ltb_le_lt; eauto).
      rewrite Eba; simpl; rewrite ?Eya; reflexivity.
    + destruct (ltb (fst b) (fst a)) eqn:E1; destruct (ltb (fst a) (fst b)) eqn:E2;
        rewrite ?Eyb, ?Eya; auto.
      * apply ltb_asym in E1. congruence.
      * exfalso. apply Hab. apply ltb_total; auto.
Qed.

(** Sorting a dict's items does not depend on the order they were inserted. *)
Lemma sort_params_perm_eq (l1 l2 : list (string * string)) :
  Permutation l1 l2 -> NoDup (map fst l1) -> sort_params l1 = sort_params l2.
Proof.
  induction 1 as [| x l1 l2 Hp IH | x y l | l1 l2 l3 H12 IH12 H23 IH23]; simpl; intros Hnd.
  - reflexivity.
  - inversion Hnd; subst. rewrite IH; auto.
  - simpl in Hnd. inversion Hnd as [|? ? Hy Hnd']; subst.
    inversion Hnd' as [|? ? Hx Hnd'']; subst.
    apply insert_param_comm. intro E. apply Hy. rewrite E. left. reflexivity.
  - rewrite IH12 by exact Hnd. apply IH23.
    eapply Permutation_NoDup; [apply Permutation_map; exact H12 | exact Hnd].
Qed.

Lemma insert_param_perm (x : string * string) (l : list (string * string)) :
  Permutation (insert_param x l) (x :: l).
Proof.
  induction l as [|y l IH]; simpl; [reflexivity|].
  destruct (ltb (fst y) (fst x)).
  - rewrite IH. apply perm_swap.
  - reflexivity.
Qed.

Lemma sort_params_perm (l : list (string * string)) : Permutation (sort_params l) l.
Proof.
  induction l as [|x l IH]; simpl; [reflexivity|].
  rewrite insert_param_perm. apply perm_skip. exact IH.
Qed.

Definition param_le (a b : string * string) : Prop := ltb (fst b) (fst a) = false.

Lemma insert_param_sorted (x : string * string) (l : list (string * string)) :
  Sorted param_le l -> Sorted param_le (insert_param x l).
Proof.
  induction 1 as [|y l Hs IH Hhd]; simpl.
  - repeat constructor.
  - destruct (ltb (fst y) (fst x)) eqn:E.
    + constructor; [exact IH|].
      destruct l as [|z l]; simpl.
      * constructor. unfold param_le. apply ltb_asym. exact E.
      * destruct (ltb (fst z) (fst x)); constructor; unfold param_le.
        -- inversion Hhd; assumption.
        -- apply ltb_asym. exact E.
    + constructor; [constructor; assumption|]. constructor. exact E.
Qed.

Lemma sort_params_sorted (l : list (string * string)) : Sorted param_le (sort_params l).
Proof. induction l; simpl; [constructor | apply insert_param_sorted; assumption]. Qed.

(** Re-sorting an already sorted list with the stable sort changes nothing. *)
Lemma sort_by_key_sorted_id (l : list string) : Sorted key_le l -> sort_by_key l = l.
Proof.
  induction 1 as [|x l Hs IH Hhd]; simpl; [reflexivity|].
  rewrite IH. destruct Hhd as [|y r Hxy]; simpl; [reflexivity|].
  unfold key_le in Hxy. rewrite Hxy. reflexivity.
Qed.

Definition kv_str (kv : string * string) : string := fst kv ++ "=" ++ snd kv.

Lemma no_sep_app (c : ascii) (x y : string) : no_sep c x -> no_sep c y -> no_sep c (x ++ y).
Proof.
  induction x as [|d x IH]; simpl; intros Hx Hy; [exact Hy|].
  apply no_sep_cons in Hx as [Hd Hx]. unfold no_sep in *. simpl.
  intros [E|E]; [congruence | exact (IH Hx Hy E)].
Qed.

Lemma key_kv_str (kv : string * string) : no_sep "=" (fst kv) -> key (kv_str kv) = fst kv.
Proof.
  intros H. unfold key, kv_str. change ("=" ++ snd kv) with (String "=" (snd kv)).
  rewrite split_app_sep by exact H. reflexivity.
Qed.

(** A parameter whose key holds neither [&] nor [=] and whose value holds no [&]. *)
Definition plain_param (kv : string * string) : Prop :=
  no_sep "&" (fst kv) /\ no_sep "=" (fst kv) /\ no_sep "&" (snd kv).

Lemma kv_str_no_amp (kv : string * string) : plain_param kv -> no_sep "&" (kv_str kv).
Proof.
  intros (H1 & _ & H3). unfold kv_str. apply no_sep_app; [exact H1|].
  change ("=" ++ snd kv) with (String "=" (snd kv)).
  unfold no_sep in *. simpl. intros [E|E]; [discriminate | exact (H3 E)].
Qed.

Lemma sorted_map_kv (l : list (string * string)) :
  Forall plain_param l -> Sorted param_le l -> Sorted key_le (map kv_str l).
Proof.
  intros Hf Hs. induction Hs as [|x l Hs IH Hhd]; simpl; constructor.
  - apply IH. inversion Hf; assumption.
  - destruct Hhd as [|y r Hxy]; simpl; constructor.
    inversion Hf as [|? ? Hx Hl]; subst. inversion Hl as [|? ? Hy _]; subst.
    unfold key_le. rewrite (key_kv_str x), (key_kv_str y) by (apply Hx || apply Hy).
    exact Hxy.
Qed.

Lemma query_of_cons (p : string * string) (r : list (string * string)) :
  query_of (Some (p :: r)) = join "&" (map kv_str (sort_params (p :: r))).
Proof. reflexivity. Qed.

(** With plain parameters, get_signature's re-sorting leaves request's query
    string as it is, and that string is not empty. *)
Lemma sorted_query_of (ps : list (string * string)) :
  ps <> [] -> Forall plain_param ps ->
  sorted_query (query_of (Some ps)) = query_of (Some ps) /\ is_empty (query_of (Some ps)) = false.
Proof.
  intros Hne Hf. destruct ps as [|p r]; [congruence|]. rewrite query_of_cons.
  assert (Hf' : Forall plain_param (sort_params (p :: r))).
  { apply Forall_forall. intros x Hx. apply (Forall_forall _ _ ) with (x := x) in Hf; [exact Hf|].
    eapply Permutation_in; [apply sort_params_perm | exact Hx]. }
  split.
  - rewrite sorted_query_join.
    + rewrite sort_by_key_sorted_id; [reflexivity|].
      apply sorted_map_kv; [exact Hf' | apply sort_params_sorted].
    + apply Forall_map. eapply Forall_impl; [|exact Hf']. intros a Ha. apply kv_str_no_amp. exact Ha.
  - assert (Hp : Permutation (sort_params (p :: r)) (p :: r)) by apply sort_params_perm.
    destruct (sort_params (p :: r)) as [|y ys].
    + apply Permutation_nil in Hp. discriminate.
    + cbn [map]. unfold kv_str at 1. destruct (fst y) as [|c k].
      * change ("" ++ "=" ++ snd y) with (String "=" (snd y)). rewrite join_cons_String. reflexivity.
      * change ((String c k) ++ "=" ++ snd y) with (String c (k ++ "=" ++ snd y)).
        rewrite join_cons_String. reflexivity.
Qed.

Lemma upper_char_idem (c : ascii) : upper_char (upper_char c) = upper_char c.
Proof. destruct c as [[] [] [] [] [] [] [] []]; reflexivity. Qed.

Lemma upper_idem (s : string) : upper (upper s) = upper s.
Proof. induction s as [|c s IH]; simpl; [reflexivity|]. rewrite upper_char_idem, IH. reflexivity. Qed.

End QueryFacts.

(** ** The loop and request, seen from their headers, attempts and sleeps *)

Module ExtraRun.
Import PyStr Signature Client Kinds RequestFacts RequestRun.

(** The JSON text request signs for a POST body ([json.dumps(body) if body else '']). *)
Definition body_str (body : option (list (string * json))) : string :=
  match body with Some ((_ :: _) as kvs) => json_dumps (JObj kvs) | _ => "" end.

(** The headers request builds before its loop. *)
Definition request_headers (c : BitgetAPI) (ts : Z) (method endpoint : string)
           (params : option (list (string * string))) (body : option (list (string * json))) :
  list (string * string) :=
  (base_headers c ++ [("ACCESS-TIMESTAMP", str_Z ts);
                      ("ACCESS-SIGN", get_signature (secret c) ts (upper method) ("/" ++ lstrip_slash endpoint)
                                        (if is_get method then query_of params else "")
                                        (if is_get method then "" else body_str body))])%list.

(** A trace entry that, if it is an attempt, is one with these method, URL,
    headers and payload. *)
Definition attempt_as (m u : string) (h : list (string * string)) (pl : option json) (e : event) : Prop :=
  match e with Send m' u' h' pl' _ => m' = m /\ u' = u /\ h' = h /\ pl' = pl | _ => True end.

(** Every sleep a trace holds, those of nested get_server_time calls included. *)
Fixpoint event_sleeps (e : event) : list Q :=
  match e with
  | Sleep s => [s]
  | ServerTime sub _ =>
      (fix go (l : list event) : list Q :=
         match l with [] => [] | x :: r => (event_sleeps x ++ go r)%list end) sub
  | Send _ _ _ _ _ => []
  end.

Definition sleeps (tr : list event) : list Q := flat_map event_sleeps tr.

Section Run.
Variable clock : nat -> Z.
Variable rand : nat -> Q.
Variable transport : string -> nat -> response.

Lemma request_unfold (depth : nat) (c : BitgetAPI) (method endpoint : string)
      (params : option (list (string * string))) (body : option (list (string * json)))
      (max_retries : Z) (w : world) :
  request clock rand transport depth c method endpoint params body max_retries w =
  loop rand transport (server_time_sync clock rand transport depth c) method
       (request_url c method endpoint params)
       (request_headers c (clock (clock_reads w)) method endpoint params body)
       (if is_get method then None else option_map JObj body)
       max_retries (Z.to_nat (max_retries + 1)) 0
       (mkWorld (sent w) (S (clock_reads w)) (rand_draws w)).
Proof. destruct depth; reflexivity. Qed.

(** Every attempt of the loop re-sends its one method, URL, header set and payload. *)
Lemma loop_attempts_as (sync : world -> Z * list event * world) (m u : string)
      (h : list (string * string)) (pl : option json) (max_retries : Z) (fuel : nat) :
  forall (retries : Z) (w : world),
    Forall (attempt_as m u h pl) (snd (fst (loop rand transport sync m u h pl max_retries fuel retries w))).
Proof.
  induction fuel as [|f IH]; intros retries w; cbn [loop].
  - constructor.
  - split_body.
    all: try (cbn; repeat constructor; fail).
    all: use_rec IH; cbn in *; repeat constructor; assumption.
Qed.

(** The loop makes at most [fuel] attempts at its URL; [sync] only adds
    requests to the time URL. *)
Lemma loop_attempt_bound (c : BitgetAPI) (sync : world -> Z * list event * world) (m u : string)
      (h : list (string * string)) (pl : option json) (max_retries : Z) (fuel : nat) :
  u <> time_url c -> sync_ok c sync ->
  forall (retries : Z) (w : world),
    exists extra, sent (snd (loop rand transport sync m u h pl max_retries fuel retries w))
                  = (sent w ++ extra)%list /\
                  Forall (fun x => x = u \/ x = time_url c) extra /\
                  (count_occ string_dec extra u <= fuel)%nat.
Proof.
  intros Hu Hsync. induction fuel as [|f IH]; intros retries w; cbn [loop].
  - exists []. rewrite app_nil_r. split; [reflexivity | split; [constructor | cbn; lia]].
  - assert (Hcu : forall l, count_occ string_dec (u :: l) u = S (count_occ string_dec l u)).
    { intros l. cbn. destruct (string_dec u u); congruence. }
    unfold send, draw; cbv beta iota zeta; cbn [sent clock_reads rand_draws]. split_body.
    all: try (exists []; rewrite app_nil_r; split; [reflexivity | split; [constructor | cbn; lia]]).
    all: try (exists [u]; split; [reflexivity | split; [constructor; [left; reflexivity | constructor] | rewrite Hcu; cbn; lia]]).
    all: try (use_rec IH; destruct IH as (e2 & He2 & Hf2 & Hc2); cbn [snd sent] in *;
              exists (u :: e2); rewrite He2, <- app_assoc;
              split; [reflexivity | split; [constructor; [left; reflexivity | assumption] | rewrite Hcu; lia]]).
    all: match goal with
         | Hs : ?s ?w1 = (?p, ?w2) |- _ =>
             destruct (Hsync w1) as [e1 [He1 Hf1]]; rewrite Hs in He1; cbn [snd] in He1;
             use_rec IH; destruct IH as (e2 & He2 & Hf2 & Hc2); cbn [snd sent] in *;
             exists (u :: e1 ++ e2); rewrite He2, He1;
             rewrite <- !app_assoc; split; [reflexivity|]; split;
             [ constructor; [left; reflexivity | apply Forall_app; split; [|exact Hf2]];
               eapply Forall_impl; [|exact Hf1]; intros; right; assumption
             | rewrite Hcu, count_occ_app, (count_occ_others u (time_url c) e1 Hu Hf1); lia ]
         end.
Qed.

Lemma sleeps_cons (e : event) (tr : list event) : sleeps (e :: tr) = (event_sleeps e ++ sleeps tr)%list.
Proof. reflexivity. Qed.

Lemma event_sleeps_server (sub : list event) (ts : Z) : event_sleeps (ServerTime sub ts) = sleeps sub.
Proof. induction sub as [|x r IH]; [reflexivity|]. cbn in *. rewrite IH. reflexivity. Qed.

Definition sleep_ok (s : Q) : Prop := (1 <= s < 31)%Q.

Lemma backoff_wait_ok (r : Z) (j : Q) : (0 <= r)%Z -> (0 <= j < 1)%Q -> sleep_ok (backoff_wait r j).
Proof.
  intros Hr [H0 H1]. unfold sleep_ok, backoff_wait, backoff_base.
  assert (Hp : (1 <= 2 ^ r)%Z) by (change 1%Z with (2 ^ 0)%Z; apply Z.pow_le_mono_r; lia).
  assert (E1 : (1 <= inject_Z (Z.min 30 (2 ^ r)))%Q)
    by (change 1%Q with (inject_Z 1); rewrite <- Zle_Qle; lia).
  assert (E2 : (inject_Z (Z.min 30 (2 ^ r)) <= 30)%Q)
    by (change 30%Q with (inject_Z 30); rewrite <- Zle_Qle; lia).
  split; lra.
Qed.

(** Every sleep of the loop, and of the get_server_time calls it makes, lasts
    at least 1 s and less than 31 s, when [sync]'s own sleeps do. *)
Lemma loop_sleeps_ok (sync : world -> Z * list event * world) (m u : string)
      (h : list (string * string)) (pl : option json) (max_retries : Z) (fuel : nat) :
  (forall k, 0 <= rand k < 1)%Q ->
  (forall w, Forall sleep_ok (sleeps (snd (fst (sync w))))) ->
  forall (retries : Z) (w : world), (0 <= retries)%Z ->
    Forall sleep_ok (sleeps (snd (fst (loop rand transport sync m u h pl max_retries fuel retries w)))).
Proof.
  intros Hrand Hsync. induction fuel as [|f IH]; intros retries w Hr; cbn [loop].
  - constructor.
  - unfold send, draw; cbv beta iota zeta; cbn [sent clock_reads rand_draws]. split_body.
    all: try (cbn; constructor; fail).
    all: try (use_rec IH; cbn [fst snd] in *; rewrite !sleeps_cons; cbn [event_sleeps app];
              constructor; [apply backoff_wait_ok; [lia | apply Hrand] | apply IH; lia]).
    all: match goal with
         | Hs : ?s ?w1 = (?p, ?w2) |- _ =>
             pose proof (Hsync w1) as Hq; rewrite Hs in Hq; cbn [fst snd] in Hq;
             use_rec IH; cbn [fst snd] in *;
             rewrite !sleeps_cons, event_sleeps_server; cbn [event_sleeps app];
             constructor; [unfold sleep_ok; split; lra|];
             apply Forall_app; split; [exact Hq | apply IH; lia]
         end.
Qed.

(** Every sleep of a call of request, nested calls included, lasts at least
    1 s and less than 31 s. *)
Lemma request_sleeps_ok (Hrand : forall k, (0 <= rand k < 1)%Q) (depth : nat) :
  forall (c : BitgetAPI) (method endpoint : string) (params : option (list (string * string)))
         (body : option (list (string * json))) (max_retries : Z) (w : world),
    Forall sleep_ok (sleeps (snd (fst (request clock rand transport depth c method endpoint params body max_retries w)))).
Proof.
  induction depth as [|d IH]; intros c method endpoint params body max_retries w;
    rewrite request_unfold; apply loop_sleeps_ok; try exact Hrand; try lia;
    intros w'; cbn [server_time_sync read_clock].
  - constructor.
  - specialize (IH c "get" TIME_ENDPOINT None None 3%Z w').
    destruct (request clock rand transport d c "get" TIME_ENDPOINT None None 3%Z w') as [[r tr] w''].
    cbn [fst snd] in IH. destruct (server_time_of r); exact IH.
Qed.

(** request depends on the client only through its secret, its fixed
    headers and its base URL with trailing slashes removed. *)
Lemma request_client_irrelevant (depth : nat) :
  forall (c c' : BitgetAPI),
    secret c = secret c' -> base_headers c = base_headers c' ->
    rstrip_slash (base_url c) = rstrip_slash (base_url c') ->
    forall (method endpoint : string) (params : option (list (string * string)))
           (body : option (list (string * json))) (max_retries : Z) (w : world),
      request clock rand transport depth c method endpoint params body max_retries w =
      request clock rand transport depth c' method endpoint params body max_retries w.
Proof.
  induction depth as [|d IH]; intros c c' Hs Hh Hb method endpoint params body max_retries w;
    rewrite !request_unfold;
    replace (request_url c method endpoint params) with (request_url c' method endpoint params)
      by (unfold request_url; rewrite Hb; reflexivity);
    replace (request_headers c) with (request_headers c')
      by (unfold request_headers; rewrite Hs, Hh; reflexivity).
  - reflexivity.
  - replace (server_time_sync clock rand transport (S d) c) with (server_time_sync clock rand transport (S d) c');
      [reflexivity|].
    apply functional_extensionality. intros w'. cbn [server_time_sync].
    rewrite (IH c c' Hs Hh Hb). reflexivity.
Qed.

End Run.
End ExtraRun.

(** ** str and int, digests and base64, the candle intervals *)

Module ValueFacts.
Import PyStr Crypto Client Domain.

Lemma digits_value_acc (s : string) :
  forall a b x, digits_value s a = Some x ->
    digits_value s b = Some (x + (b - a) * 10 ^ Z.of_nat (String.length s))%Z.
Proof.
  induction s as [|c r IH]; intros a b x H; cbn [digits_value String.length] in *.
  - injection H as <-. f_equal. lia.
  - destruct ((48 <=? _) && (_ <=? 57))%Z; [|discriminate].
    rewrite (IH _ _ _ H). f_equal. rewrite Nat2Z.inj_succ, Z.pow_succ_r by lia. ring.
Qed.

Lemma digit_char_value (d : N) :
  (d < 10)%N -> Z.of_nat (nat_of_ascii (digit_char d)) = (48 + Z.of_N d)%Z.
Proof.
  intros Hd. unfold digit_char, nat_of_ascii. rewrite N_ascii_embedding by lia.
  rewrite N_nat_Z. lia.
Qed.

Lemma N_digits_value (f : nat) :
  forall n acc v, (Z.of_N n < 10 ^ Z.of_nat f)%Z -> digits_value acc 0 = Some v ->
    digits_value (N_digits f n acc) 0 = Some (Z.of_N n * 10 ^ Z.of_nat (String.length acc) + v)%Z.
Proof.
  induction f as [|f IH]; intros n acc v Hn Hv; cbn [N_digits].
  - assert (n = 0%N) by (cbn in Hn; lia). subst n. rewrite Hv. reflexivity.
  - assert (Hm : (n mod 10 < 10)%N) by (apply N.mod_lt; lia).
    assert (Hm' : (0 <= Z.of_N (n mod 10) < 10)%Z)
      by (split; [apply N2Z.is_nonneg | apply (N2Z.inj_lt _ 10); exact Hm]).
    assert (Hacc : digits_value (String (digit_char (n mod 10)) acc) 0
                   = Some (v + Z.of_N (n mod 10) * 10 ^ Z.of_nat (String.length acc))%Z).
    { cbn [digits_value]. rewrite digit_char_value by exact Hm.
      replace ((48 <=? 48 + Z.of_N (n mod 10)) && (48 + Z.of_N (n mod 10) <=? 57))%Z with true
        by (symmetry; apply andb_true_iff; split; apply Z.leb_le; lia).
      rewrite (digits_value_acc acc 0 _ v Hv). f_equal. lia. }
    assert (Hdm : (Z.of_N n = 10 * Z.of_N (n / 10) + Z.of_N (n mod 10))%Z)
      by (rewrite N2Z.inj_div, N2Z.inj_mod; apply Z.div_mod; lia).
    destruct (n <? 10)%N eqn:Hlt.
    + rewrite Hacc. apply N.ltb_lt in Hlt. rewrite N.mod_small by exact Hlt. f_equal. lia.
    + assert (Hn' : (Z.of_N (n / 10) < 10 ^ Z.of_nat f)%Z).
      { rewrite Nat2Z.inj_succ, Z.pow_succ_r in Hn by lia. rewrite N2Z.inj_div.
        apply Z.div_lt_upper_bound; lia. }
      rewrite (IH _ _ _ Hn' Hacc).
      cbn [String.length]. rewrite Nat2Z.inj_succ, Z.pow_succ_r by lia. f_equal.
      rewrite Hdm. ring.
Qed.

Lemma pos_size_nat_bound (p : positive) : (Z.pos p < 2 ^ Z.of_nat (Pos.size_nat p))%Z.
Proof.
  induction p as [p IH|p IH|]; [| |reflexivity];
    change (Pos.size_nat (_ p)) with (S (Pos.size_nat p));
    rewrite Nat2Z.inj_succ, Z.pow_succ_r by apply Nat2Z.is_nonneg;
    [rewrite Pos2Z.inj_xI | rewrite Pos2Z.inj_xO]; lia.
Qed.

Lemma str_N_fuel (n : N) : (Z.of_N n < 10 ^ Z.of_nat (S (N.size_nat n)))%Z.
Proof.
  destruct n as [|p]; [cbn; lia|].
  cbn [N.size_nat]. rewrite Nat2Z.inj_succ, Z.pow_succ_r by lia.
  assert (H2 : (2 ^ Z.of_nat (Pos.size_nat p) <= 10 ^ Z.of_nat (Pos.size_nat p))%Z)
    by (apply Z.pow_le_mono_l; lia).
  pose proof (pos_size_nat_bound p). cbn [Z.of_N].
  assert (0 < 10 ^ Z.of_nat (Pos.size_nat p))%Z by (apply Z.pow_pos_nonneg; lia). lia.
Qed.

Lemma str_N_value (n : N) : digits_value (str_N n) 0 = Some (Z.of_N n).
Proof.
  unfold str_N. rewrite (N_digits_value _ n EmptyString 0); [f_equal; cbn; ring | apply str_N_fuel | reflexivity].
Qed.

Lemma N_digits_shape (f : nat) : forall n acc, acc <> EmptyString -> N_digits f n acc <> EmptyString.
Proof.
  induction f as [|f IH]; intros n acc H; cbn [N_digits]; [exact H|].
  destruct (n <? 10)%N; [discriminate | apply IH; discriminate].
Qed.

Lemma str_N_head (n : N) : exists d r, (d < 10)%N /\ str_N n = String (digit_char d) r.
Proof.
  unfold str_N. remember (N.size_nat n) as k eqn:Hk. clear Hk.
  assert (G : forall f m acc, (exists d r, (d < 10)%N /\ acc = String (digit_char d) r) ->
                exists d r, (d < 10)%N /\ N_digits f m acc = String (digit_char d) r).
  { induction f as [|f IH]; intros m acc Hacc; cbn [N_digits]; [exact Hacc|].
    destruct (m <? 10)%N.
    - exists (m mod 10)%N, acc. split; [apply N.mod_lt; lia | reflexivity].
    - apply IH. exists (m mod 10)%N, acc. split; [apply N.mod_lt; lia | reflexivity]. }
  cbn [N_digits]. destruct (n <? 10)%N.
  - exists (n mod 10)%N, EmptyString. split; [apply N.mod_lt; lia | reflexivity].
  - apply G. exists (n mod 10)%N, EmptyString. split; [apply N.mod_lt; lia | reflexivity].
Qed.

(** A numeral that starts with a digit is read by [int] from its first character. *)
Lemma parse_int_digit (d : N) (r : string) :
  (d < 10)%N -> parse_int (String (digit_char d) r) = digits_value (String (digit_char d) r) 0.
Proof.
  intros Hd.
  destruct d as [|p]; [reflexivity|].
  do 4 (destruct p as [p|p|]; try reflexivity); exfalso; lia.
Qed.

(** [int(str(z)) == z]. *)
Lemma parse_int_str_Z (z : Z) : parse_int (str_Z z) = Some z.
Proof.
  unfold str_Z. destruct (z <? 0)%Z eqn:Hz.
  - apply Z.ltb_lt in Hz. destruct (str_N_head (Z.to_N (- z))) as (d & r & Hd & E).
    pose proof (str_N_value (Z.to_N (- z))) as Hv. rewrite E in *. cbn [append].
    change (parse_int (String "-" (String (digit_char d) r)))
      with (option_map Z.opp (digits_value (String (digit_char d) r) 0)).
    rewrite Hv. cbn. f_equal. rewrite Z2N.id by lia. lia.
  - apply Z.ltb_ge in Hz. destruct (str_N_head (Z.to_N z)) as (d & r & Hd & E).
    pose proof (str_N_value (Z.to_N z)) as Hv. rewrite E in *.
    rewrite parse_int_digit by exact Hd. rewrite Hv. f_equal. apply Z2N.id. exact Hz.
Qed.

(** Lengths of the digest and its encoding. *)
Lemma be_bytes_length (n : nat) : forall x, length (be_bytes n x) = n.
Proof. induction n as [|n IH]; intros x; cbn [be_bytes]; [reflexivity|]. rewrite length_app, IH. cbn. lia. Qed.

Lemma round_length (st : list Z) (kw : Z * Z) : length (round st kw) = length st.
Proof. unfold round. do 8 (destruct st as [|? st]; try reflexivity). destruct st; reflexivity. Qed.

Lemma fold_round_length (l : list (Z * Z)) : forall st, length (fold_left round l st) = length st.
Proof. induction l as [|kw l IH]; intros st; cbn; [reflexivity|]. rewrite IH. apply round_length. Qed.

Lemma compress_length (hv block : list Z) : length (compress hv block) = length hv.
Proof.
  unfold compress. rewrite length_map, length_combine, fold_round_length. lia.
Qed.

Lemma fold_compress_length (bs : list (list Z)) :
  forall hv, length (fold_left compress bs hv) = length hv.
Proof. induction bs as [|b bs IH]; intros hv; cbn; [reflexivity|]. rewrite IH. apply compress_length. Qed.

Lemma flat_map_be_bytes_length (l : list Z) : length (flat_map (be_bytes 4) l) = (4 * length l)%nat.
Proof. induction l as [|x l IH]; cbn [flat_map]; [reflexivity|]. rewrite length_app, be_bytes_length, IH. cbn. lia. Qed.

Lemma sha256_length (msg : list Z) : length (sha256 msg) = 32%nat.
Proof. unfold sha256. rewrite flat_map_be_bytes_length, fold_compress_length. reflexivity. Qed.

Lemma hmac_sha256_length (key msg : list Z) : length (hmac_sha256 key msg) = 32%nat.
Proof. unfold hmac_sha256. apply sha256_length. Qed.

Lemma b64encode_3n2 (n : nat) :
  forall l, length l = (3 * n + 2)%nat ->
    String.length (b64encode l) = (4 * n + 4)%nat /\ String.get (4 * n + 3) (b64encode l) = Some "="%char.
Proof.
  induction n as [|n IH]; intros l Hl.
  - destruct l as [|a [|b [|c r]]]; cbn in Hl; try lia. split; reflexivity.
  - destruct l as [|a [|b [|c r]]]; cbn in Hl; try lia.
    destruct (IH r) as [H1 H2]; [lia|].
    cbn [b64encode String.length]. split; [rewrite H1; lia|].
    replace (4 * S n + 3)%nat with (S (S (S (S (4 * n + 3)))))%nat by lia. exact H2.
Qed.

(** The candle intervals: [interval_mapping]'s key ["1M"] is never looked up. *)
Lemma lower_char_not_upper_M (c : ascii) : lower_char c <> "M"%char.
Proof. destruct c as [[] [] [] [] [] [] [] []]; vm_compute; discriminate. Qed.

Lemma lower_not_1M (s : string) : lower s <> "1M".
Proof.
  destruct s as [|a [|b [|x r]]]; cbn [lower]; try discriminate.
  intros E. injection E as _ Eb. exact (lower_char_not_upper_M b Eb).
Qed.

Lemma interval_mapping_1M (k : string) : assoc k interval_mapping = Some "1M" -> k = "1M".
Proof.
  unfold interval_mapping. cbn [assoc].
  repeat match goal with
         | |- context [String.eqb k ?x] => destruct (String.eqb_spec k x) as [->|_]
         end; intros H; try discriminate; try reflexivity.
Qed.

End ValueFacts.

(** ** Tools for the further properties of [request] *)

Module ExtraFacts.
Import PyStr Crypto Signature Client Kinds RequestFacts RequestRun QueryFacts ExtraRun Domain ValueFacts.

Lemma append_empty_r (s : string) : (s ++ "")%string = s.
Proof. induction s as [|ch r IH]; cbn; [reflexivity | rewrite IH; reflexivity]. Qed.

Lemma assoc_timestamp (c : BitgetAPI) (ts sig : string) :
  assoc "ACCESS-TIMESTAMP" (base_headers c ++ [("ACCESS-TIMESTAMP", ts); ("ACCESS-SIGN", sig)])%list = Some ts.
Proof. reflexivity. Qed.

Lemma assoc_sign (c : BitgetAPI) (ts sig : string) :
  assoc "ACCESS-SIGN" (base_headers c ++ [("ACCESS-TIMESTAMP", ts); ("ACCESS-SIGN", sig)])%list = Some sig.
Proof. reflexivity. Qed.

Lemma not_drift_existsb (s : string) : ~ In s drift_codes -> existsb (String.eqb s) drift_codes = false.
Proof.
  intros Hn. destruct (existsb (String.eqb s) drift_codes) eqn:E; [|reflexivity].
  apply existsb_exists in E as (x & Hx & Heq). apply String.eqb_eq in Heq. subst x. contradiction.
Qed.

(** A GET attempt carrying the given query in its URL and signed over it. *)
Definition signed_get_attempt (c : BitgetAPI) (method endpoint query : string) (ts : Z) (e : event) : Prop :=
  match e with
  | Send m u h pl _ =>
      m = method /\
      u = ((rstrip_slash (base_url c) ++ "/" ++ lstrip_slash endpoint) ++ "?" ++ query)%string /\
      assoc "ACCESS-TIMESTAMP" h = Some (str_Z ts) /\
      assoc "ACCESS-SIGN" h =
        Some (b64encode (hmac_sha256 (encode (secret c))
                (encode (str_Z ts ++ upper method ++ "/" ++ lstrip_slash endpoint ++ "?" ++ query)%string))) /\
      pl = None
  | _ => True
  end.

(** Enter one attempt of the loop whose answer is given by [Ht]. *)
Ltac enter_send Hr Ht :=
  cbn [loop];
  replace (negb (_ <=? _)%Z) with false by (symmetry; apply negb_false_iff, Z.leb_le; lia);
  unfold send, draw; cbv beta iota zeta; cbn [sent clock_reads rand_draws];
  rewrite Ht; cbv beta iota zeta.

Section Exhaust.
Variable rand : nat -> Q.
Variable transport : string -> nat -> response.

(** An attempt whose answer is handled by an [except] clause with message
    [msg]: return the failure on the last allowed attempt, back off otherwise. *)
Definition exception_step (sync : world -> Z * list event * world) (m u : string)
           (h : list (string * string)) (pl : option json) (max_retries : Z)
           (resp : response) (msg : string) : Prop :=
  forall f r w, (r <= max_retries)%Z ->
    loop rand transport sync m u h pl max_retries (S f) r w =
    if (max_retries <=? r)%Z then (failed_error msg, [Send m u h pl resp], after_send u w)
    else let '(res, tr, w3) :=
             loop rand transport sync m u h pl max_retries f (r + 1)
                  (mkWorld (sent w ++ [u])%list (clock_reads w) (S (rand_draws w))) in
         (res, Send m u h pl resp :: Sleep (backoff_wait r (rand (rand_draws w))) :: tr, w3).

Lemma loop_exhaust (sync : world -> Z * list event * world) (m u : string)
      (h : list (string * string)) (pl : option json) (max_retries : Z) (resp : response) (msg : string) :
  exception_step sync m u h pl max_retries resp msg ->
  forall f r w, (r <= max_retries)%Z -> (Z.to_nat (max_retries - r) < f)%nat ->
    fst (fst (loop rand transport sync m u h pl max_retries f r w)) = failed_error msg /\
    sent (snd (loop rand transport sync m u h pl max_retries f r w))
    = (sent w ++ repeat u (S (Z.to_nat (max_retries - r))))%list.
Proof.
  intros Hstep. induction f as [|f IH]; intros r w Hr Hf; [lia|].
  rewrite (Hstep f r w Hr).
  destruct (max_retries <=? r)%Z eqn:Hle.
  - apply Z.leb_le in Hle. replace (Z.to_nat (max_retries - r)) with 0%nat by lia.
    split; reflexivity.
  - apply Z.leb_gt in Hle.
    destruct (IH (r + 1)%Z (mkWorld (sent w ++ [u])%list (clock_reads w) (S (rand_draws w))))
      as [H1 H2]; [lia | lia |].
    destruct (loop rand transport sync m u h pl max_retries f (r + 1) _) as [[res tr] w3].
    cbn [fst snd sent] in *. split; [exact H1|].
    rewrite H2, <- app_assoc.
    replace (Z.to_nat (max_retries - r)) with (S (Z.to_nat (max_retries - (r + 1)))) by lia.
    reflexivity.
Qed.

(** HTTP 400 whose JSON body is not an object: [response_data.get] raises. *)
Lemma step_400_not_object (sync : world -> Z * list event * world) (m u : string)
      (h : list (string * string)) (pl : option json) (max_retries : Z) (v : json) (t : string) :
  (forall kvs, v <> JObj kvs) ->
  (forall n, transport u n = Resp 400 (Some v) t) ->
  exception_step sync m u h pl max_retries (Resp 400 (Some v) t) ("Unexpected error: " ++ attr_error v "get")%string.
Proof.
  intros Hv Ht f r w Hr. enter_send Hr (Ht (count_occ string_dec (sent w) u)).
  destruct v as [| | | | |kvs]; [| | | | | exfalso; exact (Hv kvs eq_refl)];
    destruct (max_retries <=? r)%Z; reflexivity.
Qed.

(** HTTP 400 whose "code" is not a string: [error_code.startswith] raises. *)
Lemma step_400_code_not_string (sync : world -> Z * list event * world) (m u : string)
      (h : list (string * string)) (pl : option json) (max_retries : Z)
      (kvs : list (string * json)) (v : json) (t : string) :
  assoc "code" kvs = Some v ->
  (forall s, v <> JStr s) ->
  (forall n, transport u n = Resp 400 (Some (JObj kvs)) t) ->
  exception_step sync m u h pl max_retries (Resp 400 (Some (JObj kvs)) t)
                 ("Unexpected error: " ++ attr_error v "startswith")%string.
Proof.
  intros Hc Hv Ht f r w Hr. enter_send Hr (Ht (count_occ string_dec (sent w) u)).
  cbn [dict_get]. rewrite Hc. cbv beta iota.
  destruct v as [| | |s| |]; [| | | exfalso; exact (Hv s eq_refl) | |];
    destruct (max_retries <=? r)%Z; reflexivity.
Qed.

End Exhaust.

Lemma request_exhaust (clock : nat -> Z) (rand : nat -> Q) (transport : string -> nat -> response)
      (depth : nat) (c : BitgetAPI) (method endpoint : string)
      (params : option (list (string * string))) (body : option (list (string * json)))
      (max_retries : Z) (w : world) (resp : response) (msg : string) :
  (0 <= max_retries)%Z ->
  (forall sync h, exception_step rand transport sync method (request_url c method endpoint params) h
                    (if is_get method then None else option_map JObj body) max_retries resp msg) ->
  fst (fst (request clock rand transport depth c method endpoint params body max_retries w)) = failed_error msg /\
  sent (snd (request clock rand transport depth c method endpoint params body max_retries w))
  = (sent w ++ repeat (request_url c method endpoint params) (Z.to_nat (max_retries + 1)))%list.
Proof.
  intros Hm Hs.
  destruct (request_as_loop clock rand transport depth c method endpoint params body max_retries w)
    as (sync & h & _ & ->).
  destruct (loop_exhaust rand transport sync method (request_url c method endpoint params) h
              (if is_get method then None else option_map JObj body) max_retries resp msg (Hs sync h)
              (Z.to_nat (max_retries + 1)) 0 (mkWorld (sent w) (S (clock_reads w)) (rand_draws w)))
    as [H1 H2]; [lia | lia |].
  split; [exact H1|]. rewrite H2. cbn [sent].
  replace (S (Z.to_nat (max_retries - 0))) with (Z.to_nat (max_retries + 1)) by lia. reflexivity.
Qed.

End ExtraFacts.

(* ------------------------------------------------------------------ *)
(** ** Further properties of request, get_server_time and the domain methods *)

Module ExtraClaims.
Import PyStr Crypto Signature Client Kinds RequestFacts RequestRun QueryFacts ExtraRun Domain ValueFacts ExtraFacts.

(** X1: a GET with parameters whose keys hold no '&' or '=' and whose values
    hold no '&' sends every attempt to the URL with the key-sorted query
    string appended, with the ACCESS-TIMESTAMP read before the loop, no JSON
    payload, and an ACCESS-SIGN that is the HMAC of timestamp, method, path,
    '?' and that same query string. *)
Theorem get_request_signed_url (clock : nat -> Z) (rand : nat -> Q) (transport : string -> nat -> response)
        (depth : nat) (c : BitgetAPI) (method endpoint : string) (ps : list (string * string))
        (body : option (list (string * json))) (max_retries : Z) (w : world) :
  is_get method = true -> ps <> [] -> Forall plain_param ps ->
  Forall (signed_get_attempt c method endpoint (query_of (Some ps)) (clock (clock_reads w)))
         (snd (fst (request clock rand transport depth c method endpoint (Some ps) body max_retries w))).
Proof.
  intros Hg Hne Hplain.
  destruct (sorted_query_of ps Hne Hplain) as [Hs He].
  rewrite request_unfold. eapply Forall_impl; [|apply loop_attempts_as].
  intros [m u h pl resp | s | sub ts]; [|trivial|trivial]. intros (-> & -> & -> & ->).
  destruct ps as [|p r]; [congruence|].
  unfold request_url, request_headers. rewrite Hg. cbv beta iota zeta.
  split; [reflexivity|]. split; [reflexivity|]. split; [apply assoc_timestamp|].
  split; [|reflexivity]. rewrite assoc_sign. f_equal.
  unfold get_signature, message. rewrite Hs, He. cbn [negb].
  rewrite upper_idem, append_empty_r. reflexivity.
Qed.

Lemma get_request_signed_url_witness :
  Forall (signed_get_attempt Scenario.client "get" "api/v2/mix/account/accounts"
            (query_of (Some [("productType", PRODUCT_TYPE)])) (Scenario.clock 0))
         (snd (fst (request Scenario.clock Scenario.rand (Scenario.always (Resp 500 None "busy"))
                      default_depth Scenario.client "get" "api/v2/mix/account/accounts"
                      (Some [("productType", PRODUCT_TYPE)]) None 3 fresh_world))).
Proof.
  refine (get_request_signed_url Scenario.clock Scenario.rand (Scenario.always (Resp 500 None "busy"))
            default_depth Scenario.client "get" "api/v2/mix/account/accounts"
            [("productType", PRODUCT_TYPE)] None 3 fresh_world _ _ _).
  - reflexivity.
  - discriminate.
  - repeat constructor; unfold no_sep; cbn; intuition discriminate.
Defined.

(** X2: request's result does not depend on the order in which the
    parameter dict was built: two parameter lists with unique keys that
    are permutations of each other give the same URL, headers, trace and
    result. *)
Theorem request_params_order_irrelevant (clock : nat -> Z) (rand : nat -> Q)
        (transport : string -> nat -> response) (depth : nat) (c : BitgetAPI)
        (method endpoint : string) (ps1 ps2 : list (string * string))
        (body : option (list (string * json))) (max_retries : Z) (w : world) :
  Permutation ps1 ps2 -> NoDup (map fst ps1) ->
  request clock rand transport depth c method endpoint (Some ps1) body max_retries w =
  request clock rand transport depth c method endpoint (Some ps2) body max_retries w.
Proof.
  intros Hp Hn.
  assert (Hq : sort_params ps1 = sort_params ps2) by (apply sort_params_perm_eq; assumption).
  rewrite !request_unfold.
  destruct ps1 as [|a r1]; [apply Permutation_nil in Hp; subst; reflexivity|].
  destruct ps2 as [|b r2]; [apply Permutation_sym, Permutation_nil in Hp; discriminate|].
  unfold request_url, request_headers. rewrite !query_of_cons, Hq. reflexivity.
Qed.

Lemma request_params_order_irrelevant_witness :
  request Scenario.clock Scenario.rand (Scenario.always (Resp 200 (Some JNull) "")) default_depth
          Scenario.client "get" "api/v2/mix/market/symbol-price"
          (Some [("symbol", "btcusdt"); ("productType", PRODUCT_TYPE)]) None 3 fresh_world =
  request Scenario.clock Scenario.rand (Scenario.always (Resp 200 (Some JNull) "")) default_depth
          Scenario.client "get" "api/v2/mix/market/symbol-price"
          (Some [("productType", PRODUCT_TYPE); ("symbol", "btcusdt")]) None 3 fresh_world.
Proof.
  refine (request_params_order_irrelevant Scenario.clock Scenario.rand
            (Scenario.always (Resp 200 (Some JNull) "")) default_depth Scenario.client
            "get" "api/v2/mix/market/symbol-price"
            [("symbol", "btcusdt"); ("productType", PRODUCT_TYPE)]
            [("productType", PRODUCT_TYPE); ("symbol", "btcusdt")] None 3 fresh_world _ _).
  - apply perm_swap.
  - repeat constructor; cbn; intuition discriminate.
Defined.

(** X3: trailing slashes of base_url and leading slashes of the endpoint do
    not matter: two clients whose base URLs agree after rstrip('/'), called
    on endpoints that agree after lstrip('/'), make the same request. *)
Theorem request_slash_normalized (clock : nat -> Z) (rand : nat -> Q)
        (transport : string -> nat -> response) (depth : nat) (k s p b1 b2 : string)
        (method e1 e2 : string) (params : option (list (string * string)))
        (body : option (list (string * json))) (max_retries : Z) (w : world) :
  rstrip_slash b1 = rstrip_slash b2 -> lstrip_slash e1 = lstrip_slash e2 ->
  request clock rand transport depth (mkBitgetAPI k s p b1) method e1 params body max_retries w =
  request clock rand transport depth (mkBitgetAPI k s p b2) method e2 params body max_retries w.
Proof.
  intros Hb He.
  rewrite (request_client_irrelevant clock rand transport depth (mkBitgetAPI k s p b1)
             (mkBitgetAPI k s p b2) eq_refl eq_refl Hb).
  rewrite !request_unfold. unfold request_url, request_headers. rewrite He. reflexivity.
Qed.

Lemma request_slash_normalized_witness :
  request Scenario.clock Scenario.rand (Scenario.always (Resp 200 (Some JNull) "")) default_depth
          (mkBitgetAPI "key" "secret" "pass" "https://api.bitget.com/") "get"
          "/api/v2/spot/account/info" None None 3 fresh_world =
  request Scenario.clock Scenario.rand (Scenario.always (Resp 200 (Some JNull) "")) default_depth
          (mkBitgetAPI "key" "secret" "pass" "https://api.bitget.com") "get"
          "api/v2/spot/account/info" None None 3 fresh_world.
Proof.
  refine (request_slash_normalized Scenario.clock Scenario.rand
            (Scenario.always (Resp 200 (Some JNull) "")) default_depth "key" "secret" "pass"
            "https://api.bitget.com/" "https://api.bitget.com" "get"
            "/api/v2/spot/account/info" "api/v2/spot/account/info" None None 3 fresh_world _ _);
    vm_compute; reflexivity.
Defined.

(** X4: with a negative max_retries the retry loop never runs: request
    reads the clock once, sends nothing, sleeps never and returns
    "Max retries exceeded". *)
Theorem request_negative_max_retries (clock : nat -> Z) (rand : nat -> Q)
        (transport : string -> nat -> response) (depth : nat) (c : BitgetAPI)
        (method endpoint : string) (params : option (list (string * string)))
        (body : option (list (string * json))) (max_retries : Z) (w : world) :
  (max_retries < 0)%Z ->
  request clock rand transport depth c method endpoint params body max_retries w =
  (max_retries_exceeded, [], mkWorld (sent w) (S (clock_reads w)) (rand_draws w)).
Proof.
  intros H. rewrite request_unfold.
  replace (Z.to_nat (max_retries + 1)) with 0%nat by lia. reflexivity.
Qed.

Lemma request_negative_max_retries_witness :
  request Scenario.clock Scenario.rand (Scenario.always (Resp 200 (Some JNull) "")) default_depth
          Scenario.client "get" "api/v2/spot/account/info" None None (-1) fresh_world =
  (max_retries_exceeded, [], mkWorld [] 1 0).
Proof.
  exact (request_negative_max_retries Scenario.clock Scenario.rand
           (Scenario.always (Resp 200 (Some JNull) "")) default_depth Scenario.client
           "get" "api/v2/spot/account/info" None None (-1) fresh_world ltac:(lia)).
Defined.

(** X5: a request whose own URL is not the server-time URL (the case of
    every domain method) contacts only its own URL and the server-time URL,
    and its own URL at most max_retries + 1 times, whatever the server
    answers. *)
Theorem request_attempt_bound (clock : nat -> Z) (rand : nat -> Q)
        (transport : string -> nat -> response) (depth : nat) (c : BitgetAPI)
        (method endpoint : string) (params : option (list (string * string)))
        (body : option (list (string * json))) (max_retries : Z) (w : world) :
  request_url c method endpoint params <> time_url c ->
  exists extra,
    sent (snd (request clock rand transport depth c method endpoint params body max_retries w))
    = (sent w ++ extra)%list /\
    Forall (fun x => x = request_url c method endpoint params \/ x = time_url c) extra /\
    (count_occ string_dec extra (request_url c method endpoint params) <= Z.to_nat (max_retries + 1))%nat.
Proof.
  intros Hu.
  destruct (request_as_loop clock rand transport depth c method endpoint params body max_retries w)
    as (sync & h & Hs & ->).
  exact (loop_attempt_bound rand transport c sync method (request_url c method endpoint params) h
           (if is_get method then None else option_map JObj body) max_retries
           (Z.to_nat (max_retries + 1)) Hu Hs 0 (mkWorld (sent w) (S (clock_reads w)) (rand_draws w))).
Qed.

Lemma request_attempt_bound_witness :
  exists extra,
    sent (snd (request Scenario.clock Scenario.rand Scenario.drift_then_ok default_depth
                 Scenario.client "get" "api/v2/mix/account/accounts"
                 (Some [("productType", PRODUCT_TYPE)]) None 3 fresh_world))
    = ([] ++ extra)%list /\
    Forall (fun x => x = Scenario.accounts_url \/ x = time_url Scenario.client) extra /\
    (count_occ string_dec extra Scenario.accounts_url <= 4)%nat.
Proof.
  refine (request_attempt_bound Scenario.clock Scenario.rand Scenario.drift_then_ok default_depth
            Scenario.client "get" "api/v2/mix/account/accounts"
            (Some [("productType", PRODUCT_TYPE)]) None 3 fresh_world _).
  intros H. vm_compute in H. discriminate H.
Defined.

(** X6: when random.uniform(0, 1) stays in [0, 1), every sleep request
    makes, those of nested get_server_time calls included, lasts at least
    1 and less than 31 seconds. *)
Theorem request_sleep_bounds (clock : nat -> Z) (rand : nat -> Q)
        (transport : string -> nat -> response) (depth : nat) (c : BitgetAPI)
        (method endpoint : string) (params : option (list (string * string)))
        (body : option (list (string * json))) (max_retries : Z) (w : world) :
  (forall k, (0 <= rand k < 1)%Q) ->
  Forall (fun s => (1 <= s < 31)%Q)
         (sleeps (snd (fst (request clock rand transport depth c method endpoint params body max_retries w)))).
Proof.
  intros Hr. exact (request_sleeps_ok clock rand transport Hr depth c method endpoint params body max_retries w).
Qed.

Lemma request_sleep_bounds_witness :
  Forall (fun s => (1 <= s < 31)%Q)
         (sleeps (snd (fst (request Scenario.clock Scenario.rand (Scenario.always (Resp 429 None ""))
                              default_depth Scenario.client "get" "api/v2/spot/account/info"
                              None None 3 fresh_world)))).
Proof.
  refine (request_sleep_bounds Scenario.clock Scenario.rand (Scenario.always (Resp 429 None ""))
            default_depth Scenario.client "get" "api/v2/spot/account/info" None None 3 fresh_world _).
  intros k. unfold Scenario.rand. split; vm_compute; [discriminate | reflexivity].
Defined.

(** X8: an HTTP 400 whose JSON body is not an object makes
    response_data.get raise an AttributeError, caught by the generic
    handler: against a server that always answers so, request makes
    max_retries + 1 attempts and returns "Unexpected error: '<type>' object
    has no attribute 'get'". *)
Theorem request_400_not_object_exhaustion (clock : nat -> Z) (rand : nat -> Q)
        (transport : string -> nat -> response) (depth : nat) (c : BitgetAPI)
        (method endpoint : string) (params : option (list (string * string)))
        (body : option (list (string * json))) (max_retries : Z) (w : world) (v : json) (t : string) :
  (0 <= max_retries)%Z ->
  (forall kvs, v <> JObj kvs) ->
  (forall n, transport (request_url c method endpoint params) n = Resp 400 (Some v) t) ->
  fst (fst (request clock rand transport depth c method endpoint params body max_retries w))
  = failed_error ("Unexpected error: " ++ attr_error v "get")%string /\
  sent (snd (request clock rand transport depth c method endpoint params body max_retries w))
  = (sent w ++ repeat (request_url c method endpoint params) (Z.to_nat (max_retries + 1)))%list.
Proof.
  intros Hm Hv Ht. eapply request_exhaust; [exact Hm|].
  intros sync h. apply step_400_not_object; eassumption.
Qed.

Lemma request_400_not_object_exhaustion_witness :
  fst (fst (request Scenario.clock Scenario.rand (Scenario.always (Resp 400 (Some (JArr [])) "[]"))
              default_depth Scenario.client "get" "api/v2/spot/account/info" None None 3 fresh_world))
  = failed_error ("Unexpected error: " ++ attr_error (JArr []) "get")%string /\
  sent (snd (request Scenario.clock Scenario.rand (Scenario.always (Resp 400 (Some (JArr [])) "[]"))
               default_depth Scenario.client "get" "api/v2/spot/account/info" None None 3 fresh_world))
  = ([] ++ repeat (request_url Scenario.client "get" "api/v2/spot/account/info" None) 4)%list.
Proof.
  refine (request_400_not_object_exhaustion Scenario.clock Scenario.rand
            (Scenario.always (Resp 400 (Some (JArr [])) "[]")) default_depth Scenario.client
            "get" "api/v2/spot/account/info" None None 3 fresh_world (JArr []) "[]" _ _ _).
  - lia.
  - intros kvs; discriminate.
  - intros n; reflexivity.
Defined.

(** X9: an HTTP 400 whose "code" is not a string (a number, say) is never
    taken for a clock-skew or parameter error: error_code.startswith
    raises, the generic handler retries, and against a server that always
    answers so request makes max_retries + 1 attempts and returns
    "Unexpected error: '<type>' object has no attribute 'startswith'". *)
Theorem request_400_code_not_string_exhaustion (clock : nat -> Z) (rand : nat -> Q)
        (transport : string -> nat -> response) (depth : nat) (c : BitgetAPI)
        (method endpoint : string) (params : option (list (string * string)))
        (body : option (list (string * json))) (max_retries : Z) (w : world)
        (kvs : list (string * json)) (v : json) (t : string) :
  (0 <= max_retries)%Z ->
  assoc "code" kvs = Some v ->
  (forall s, v <> JStr s) ->
  (forall n, transport (request_url c method endpoint params) n = Resp 400 (Some (JObj kvs)) t) ->
  fst (fst (request clock rand transport depth c method endpoint params body max_retries w))
  = failed_error ("Unexpected error: " ++ attr_error v "startswith")%string /\
  sent (snd (request clock rand transport depth c method endpoint params body max_retries w))
  = (sent w ++ repeat (request_url c method endpoint params) (Z.to_nat (max_retries + 1)))%list.
Proof.
  intros Hm Hc Hv Ht. eapply request_exhaust; [exact Hm|].
  intros sync h. apply (step_400_code_not_string _ _ _ _ _ _ _ _ kvs v); eassumption.
Qed.

Lemma request_400_code_not_string_exhaustion_witness :
  fst (fst (request Scenario.clock Scenario.rand
              (Scenario.always (Resp 400 (Some (JObj [("code", JNum 40001)])) ""))
              default_depth Scenario.client "get" "api/v2/spot/account/info" None None 3 fresh_world))
  = failed_error ("Unexpected error: " ++ attr_error (JNum 40001) "startswith")%string /\
  sent (snd (request Scenario.clock Scenario.rand
               (Scenario.always (Resp 400 (Some (JObj [("code", JNum 40001)])) ""))
               default_depth Scenario.client "get" "api/v2/spot/account/info" None None 3 fresh_world))
  = ([] ++ repeat (request_url Scenario.client "get" "api/v2/spot/account/info" None) 4)%list.
Proof.
  refine (request_400_code_not_string_exhaustion Scenario.clock Scenario.rand
            (Scenario.always (Resp 400 (Some (JObj [("code", JNum 40001)])) "")) default_depth
            Scenario.client "get" "api/v2/spot/account/info" None None 3 fresh_world
            [("code", JNum 40001)] (JNum 40001) "" _ _ _ _).
  - lia.
  - reflexivity.
  - intros s; discriminate.
  - intros n; reflexivity.
Defined.

(** X10: the first attempt gets HTTP 400 with an object body (or a non-JSON
    body, read as {"error": text}) whose "code" is a string that is not a
    clock-skew code (or no retry is left; a missing code reads as ""):
    request makes that one attempt and returns the error_code failure when
    the code starts with "4001" or "4002", the plain status_code failure
    otherwise. *)
Theorem request_400_string_code (clock : nat -> Z) (rand : nat -> Q)
        (transport : string -> nat -> response) (depth : nat) (c : BitgetAPI)
        (method endpoint : string) (params : option (list (string * string)))
        (body : option (list (string * json))) (max_retries : Z) (w : world)
        (p : option json) (kvs : list (string * json)) (s t : string) :
  (0 <= max_retries)%Z ->
  p = Some (JObj kvs) \/ (p = None /\ kvs = [("error", JStr t)]) ->
  assoc "code" kvs = Some (JStr s) \/ (assoc "code" kvs = None /\ s = "") ->
  ~ In s drift_codes \/ max_retries = 0%Z ->
  transport (request_url c method endpoint params)
            (count_occ string_dec (sent w) (request_url c method endpoint params)) = Resp 400 p t ->
  exists h pl,
    request clock rand transport depth c method endpoint params body max_retries w =
    (if startswith s "4001" || startswith s "4002" then
       JObj [("status", JStr "FAILED"); ("status_code", JNum 400); ("error_code", JStr s);
             ("error_msg", match assoc "msg" kvs with Some v => v | None => JStr "Unknown error" end);
             ("response_data", JObj kvs)]
     else JObj [("status", JStr "FAILED"); ("status_code", JNum 400); ("response_data", JObj kvs)],
     [Send method (request_url c method endpoint params) h pl (Resp 400 p t)],
     mkWorld (sent w ++ [request_url c method endpoint params])%list (S (clock_reads w)) (rand_draws w)).
Proof.
  intros Hm Hp Hc Hd Ht.
  destruct (request_as_loop clock rand transport depth c method endpoint params body max_retries w)
    as (sync & h & _ & ->).
  exists h, (if is_get method then None else option_map JObj body).
  assert (Hdr : (existsb (String.eqb s) drift_codes && (0 <? max_retries))%Z = false).
  { destruct Hd as [Hn | ->]; [rewrite (not_drift_existsb s Hn); reflexivity | apply andb_false_r]. }
  replace (Z.to_nat (max_retries + 1)) with (S (Z.to_nat max_retries)) by lia.
  enter_send Hm Ht.
  assert (Hrd : match p with Some j => j | None => JObj [("error", JStr t)] end = JObj kvs)
    by (destruct Hp as [-> | [-> ->]]; reflexivity).
  rewrite Hrd. cbn [dict_get].
  destruct Hc as [Hc | [Hc ->]]; rewrite Hc; cbv beta iota.
  - rewrite Hdr. cbv beta iota.
    destruct Hp as [-> | [-> ->]]; destruct (startswith s "4001" || startswith s "4002"); reflexivity.
  - destruct Hp as [-> | [-> ->]]; reflexivity.
Qed.

Lemma request_400_string_code_witness :
  exists h pl,
    request Scenario.clock Scenario.rand
            (Scenario.always (Resp 400 (Some (JObj [("code", JStr "40019"); ("msg", JStr "bad")])) ""))
            default_depth Scenario.client "post" "api/v2/mix/order/place-order" None
            (Some [("symbol", JStr "btcusdt")]) 3 fresh_world =
    (JObj [("status", JStr "FAILED"); ("status_code", JNum 400); ("error_code", JStr "40019");
           ("error_msg", JStr "bad"); ("response_data", JObj [("code", JStr "40019"); ("msg", JStr "bad")])],
     [Send "post" (request_url Scenario.client "post" "api/v2/mix/order/place-order" None) h pl
           (Resp 400 (Some (JObj [("code", JStr "40019"); ("msg", JStr "bad")])) "")],
     mkWorld [request_url Scenario.client "post" "api/v2/mix/order/place-order" None] 1 0).
Proof.
  refine (request_400_string_code Scenario.clock Scenario.rand
            (Scenario.always (Resp 400 (Some (JObj [("code", JStr "40019"); ("msg", JStr "bad")])) ""))
            default_depth Scenario.client "post" "api/v2/mix/order/place-order" None
            (Some [("symbol", JStr "btcusdt")]) 3 fresh_world
            (Some (JObj [("code", JStr "40019"); ("msg", JStr "bad")]))
            [("code", JStr "40019"); ("msg", JStr "bad")] "40019" "" _ _ _ _ _).
  - lia.
  - left; reflexivity.
  - left; reflexivity.
  - left; cbn; intuition discriminate.
  - reflexivity.
Defined.

(** X12: when the time endpoint answers HTTP 200 with a "data" object whose
    "serverTime" is the decimal string of t, get_server_time makes that one
    request and returns t itself: int(str(t)) = t. *)
Theorem get_server_time_round_trip (clock : nat -> Z) (rand : nat -> Q)
        (transport : string -> nat -> response) (depth : nat) (c : BitgetAPI) (w : world)
        (kvs d : list (string * json)) (t : Z) (txt : string) :
  assoc "data" kvs = Some (JObj d) ->
  assoc "serverTime" d = Some (JStr (str_Z t)) ->
  transport (time_url c) (count_occ string_dec (sent w) (time_url c)) = Resp 200 (Some (JObj kvs)) txt ->
  exists h,
    server_time_sync clock rand transport (S depth) c w =
    (t, [Send "get" (time_url c) h None (Resp 200 (Some (JObj kvs)) txt)],
     mkWorld (sent w ++ [time_url c])%list (S (clock_reads w)) (rand_draws w)).
Proof.
  intros Hd Hs Ht.
  assert (Hst : server_time_of (JObj kvs) = Some t).
  { cbn [server_time_of]. rewrite Hd, Hs. cbn [py_int]. apply parse_int_str_Z. }
  cbn [server_time_sync].
  destruct (request_as_loop clock rand transport depth c "get" TIME_ENDPOINT None None 3 w)
    as (sync & h & _ & E).
  rewrite E. exists h.
  replace (Z.to_nat (3 + 1)) with (S (Z.to_nat 3)) by lia.
  unfold time_url in Ht |- *.
  rewrite (loop_step_ok rand transport sync "get" (request_url c "get" TIME_ENDPOINT None) h
             (if is_get "get" then None else option_map JObj None) 3 (Z.to_nat 3) 0
             (mkWorld (sent w) (S (clock_reads w)) (rand_draws w)) (JObj kvs) txt ltac:(lia) Ht).
  cbv beta iota. rewrite Hst. reflexivity.
Qed.

Lemma get_server_time_round_trip_witness :
  exists h,
    server_time_sync Scenario.clock Scenario.rand
      (Scenario.always (Resp 200 (Some (JObj [("data", JObj [("serverTime", JStr "1700000000123")])])) ""))
      (S default_depth) Scenario.client fresh_world =
    (1700000000123%Z,
     [Send "get" (time_url Scenario.client) h None
           (Resp 200 (Some (JObj [("data", JObj [("serverTime", JStr "1700000000123")])])) "")],
     mkWorld [time_url Scenario.client] 1 0).
Proof.
  exact (get_server_time_round_trip Scenario.clock Scenario.rand
           (Scenario.always (Resp 200 (Some (JObj [("data", JObj [("serverTime", JStr "1700000000123")])])) ""))
           default_depth Scenario.client fresh_world
           [("data", JObj [("serverTime", JStr "1700000000123")])]
           [("serverTime", JStr "1700000000123")] 1700000000123%Z "" eq_refl eq_refl eq_refl).
Defined.

(** X13: every signature get_signature produces is 44 characters long and
    ends in '=': the base64 text of a 32-byte HMAC-SHA256 digest. *)
Theorem get_signature_shape (secret : string) (timestamp : Z) (method request_path query_string body : string) :
  String.length (get_signature secret timestamp method request_path query_string body) = 44%nat /\
  String.get 43 (get_signature secret timestamp method request_path query_string body) = Some "="%char.
Proof.
  unfold get_signature. apply (b64encode_3n2 10). rewrite hmac_sha256_length. reflexivity.
Qed.

(** X14: get_future_prices never asks for granularity "1M": it looks the
    lowercased interval up, so the key "1M" of interval_mapping is dead and
    the interval "1M" (one month) is sent as "1m" (one minute). *)
Theorem bitget_interval_never_monthly (interval : string) :
  bitget_interval interval <> "1M" /\ bitget_interval "1M" = "1m".
Proof.
  split; [|reflexivity].
  unfold bitget_interval. destruct (assoc (lower interval) interval_mapping) as [v|] eqn:E.
  - intros ->. exact (lower_not_1M interval (interval_mapping_1M _ E)).
  - intros ->. vm_compute in E. discriminate E.
Qed.

(** Case on the optional arguments and flags left in a goal. *)
(** X17: a request whose method is not GET carries its params nowhere:
    neither the URL, nor the signed text, nor the payload depends on them,
    so it behaves exactly as the same request without params. *)
Theorem request_non_get_ignores_params (clock : nat -> Z) (rand : nat -> Q)
        (transport : string -> nat -> response) (depth : nat) (c : BitgetAPI)
        (method endpoint : string) (params : option (list (string * string)))
        (body : option (list (string * json))) (max_retries : Z) (w : world) :
  is_get method = false ->
  request clock rand transport depth c method endpoint params body max_retries w =
  request clock rand transport depth c method endpoint None body max_retries w.
Proof.
  intros Hg. rewrite !request_unfold. unfold request_url, request_headers. rewrite Hg.
  destruct params as [[|p r]|]; reflexivity.
Qed.

Lemma request_non_get_ignores_params_witness :
  request Scenario.clock Scenario.rand (Scenario.always (Resp 200 (Some JNull) "")) default_depth
          Scenario.client "post" "api/v2/mix/account/set-leverage" (Some [("symbol", "btcusdt")])
          (Some [("leverage", JStr "10")]) 3 fresh_world =
  request Scenario.clock Scenario.rand (Scenario.always (Resp 200 (Some JNull) "")) default_depth
          Scenario.client "post" "api/v2/mix/account/set-leverage" None
          (Some [("leverage", JStr "10")]) 3 fresh_world.
Proof.
  exact (request_non_get_ignores_params Scenario.clock Scenario.rand
           (Scenario.always (Resp 200 (Some JNull) "")) default_depth Scenario.client
           "post" "api/v2/mix/account/set-leverage" (Some [("symbol", "btcusdt")])
           (Some [("leverage", JStr "10")]) 3 fresh_world eq_refl).
Defined.

(** X18: a GET request with a JSON-serializable body (any value of [json])
    carries the body nowhere: it is neither sent as JSON nor signed, so the
    request behaves exactly as without a body. *)
Theorem request_get_ignores_body (clock : nat -> Z) (rand : nat -> Q)
        (transport : string -> nat -> response) (depth : nat) (c : BitgetAPI)
        (method endpoint : string) (params : option (list (string * string)))
        (body : option (list (string * json))) (max_retries : Z) (w : world) :
  is_get method = true ->
  request clock rand transport depth c method endpoint params body max_retries w =
  request clock rand transport depth c method endpoint params None max_retries w.
Proof.
  intros Hg. rewrite !request_unfold. unfold request_headers. rewrite Hg. reflexivity.
Qed.

Lemma request_get_ignores_body_witness :
  request Scenario.clock Scenario.rand (Scenario.always (Resp 200 (Some JNull) "")) default_depth
          Scenario.client "GET" "api/v2/mix/market/contracts" (Some [("productType", PRODUCT_TYPE)])
          (Some [("symbol", JStr "btcusdt")]) 3 fresh_world =
  request Scenario.clock Scenario.rand (Scenario.always (Resp 200 (Some JNull) "")) default_depth
          Scenario.client "GET" "api/v2/mix/market/contracts" (Some [("productType", PRODUCT_TYPE)])
          None 3 fresh_world.
Proof.
  exact (request_get_ignores_body Scenario.clock Scenario.rand
           (Scenario.always (Resp 200 (Some JNull) "")) default_depth Scenario.client
           "GET" "api/v2/mix/market/contracts" (Some [("productType", PRODUCT_TYPE)])
           (Some [("symbol", JStr "btcusdt")]) 3 fresh_world eq_refl).
Defined.

End ExtraClaims.
